(** * Fraud-detection service: inference wrapper, loader, endpoint, configuration

    A shallow embedding of
      - [src/core/fraud_model.py]   (class [FraudDetectionModel]),
      - [src/api/routes/fraud_detection.py] (handler [detect_fraud]),
      - [src/api/models.py]         (request and response bodies),
      - [src/utils/config.py]       (class [AIConfig]),
      - [src/api/main.py]           (process start),
      - [tests/test_api.py]         (the client that scores the endpoint),
    together with the properties of the written specification that concern
    them.

    Python exceptions are values of a sum type; methods are state-passing
    functions over the instance, the local filesystem and the trace of the
    calls made to the outside; floats are IEEE-754 values with the
    comparison of the standard.

    The libraries the code calls are not part of it.  They enter as follows.
      - The saved model is opaque: a forward pass is a function of the batch
        that raises or returns named output tensors.  An array that has not
        the input shape declared on line 39 is refused.
      - The hub, the parser of saved models and the failures of [rmtree] are
        parameters ([FraudModel.Collaborators]).  A call that raises leaves
        the filesystem as it found it.
      - The settings class follows pydantic-settings: sources are matched
        without regard to case, empty values are ignored
        ([env_ignore_empty=True]), the environment goes before the file, and
        defaults are validated ([validate_default=True] is the default of
        [BaseSettings]).  The conversions of strings to numbers are
        parameters ([Config.Conversions]).
    Logging has no effect on any of this and is left out. *)

From Stdlib Require Import ZArith List Bool Lia.
From Stdlib Require Import SpecFloat.
From stdpp Require Import base option list gmap strings pretty.
Import ListNotations.

Local Open Scope Z_scope.

(* ===================================================================== *)
(** ** Python floats *)
(* ===================================================================== *)

(** A Python [float] is an IEEE-754 binary64 number.  [spec_float] is the
    standard library's datatype of such numbers (signed zeros, infinities,
    NaN, finite numbers [(-1)^s * m * 2^e]); [SFltb] is the IEEE [<], false
    as soon as one side is NaN.  An array element of dtype float32 is
    represented by its value, which binary64 holds exactly. *)
Module PyFloat.

Definition float : Type := spec_float.

(** Python's [x > y]. *)
Definition gt (x y : float) : bool := SFltb y x.

(** Python's [x < y]. *)
Definition lt (x y : float) : bool := SFltb x y.

(** The binary64 number [m * 2^e], in canonical form. *)
Definition binary64 (m e : Z) : float := binary_normalize 53 1024 m e false.

(** [numpy.float32(x)] read back as a Python float: round to the nearest
    binary32 number (ties to even), then renormalise to binary64, which
    is exact. *)
Definition float32 (x : float) : float :=
  match x with
  | S754_finite s m e =>
      match binary_round 24 128 s m e with
      | S754_finite s' m' e' => binary_round 53 1024 s' m' e'
      | y => y
      end
  | _ => x
  end.

End PyFloat.

(* ===================================================================== *)
(** ** Exceptions *)
(* ===================================================================== *)

Module Py.

(** The exception classes that occur in the modelled code.  All of them
    derive from [Exception]. *)
Inductive exc_class : Set :=
| TypeError | ValueError | KeyError | IndexError | AttributeError
| RuntimeError | OSError | ValidationError.

Record exn : Set := Raise { exn_class : exc_class; exn_arg : string }.

(** [str(e)]: the argument, except for [KeyError], whose [str] is the
    [repr] of the missing key. *)
Definition str (e : exn) : string :=
  match exn_class e with
  | KeyError => "'" +:+ exn_arg e +:+ "'"
  | _ => exn_arg e
  end.

(** The outcome of evaluating an expression: an exception or a value. *)
Definition result (A : Type) : Type := exn + A.

Definition ok {A} (a : A) : result A := inr a.
Definition raise {A} (c : exc_class) (msg : string) : result A :=
  inl (Raise c msg).

Definition bind {A B} (r : result A) (k : A -> result B) : result B :=
  match r with
  | inl e => inl e
  | inr a => k a
  end.

Definition is_ok {A} (r : result A) : bool :=
  match r with inr _ => true | inl _ => false end.

End Py.

Declare Scope py_scope.
Delimit Scope py_scope with py.
Notation "x <- c ;; k" := (Py.bind c (fun x => k))
  (at level 100, c at next level, right associativity) : py_scope.
Local Open Scope py_scope.

(* ===================================================================== *)
(** ** numpy arrays *)
(* ===================================================================== *)

Module Np.

Import PyFloat.

(** An array of floats of dimension one or two: its shape and its rows
    (a one-dimensional array has no rows when it is empty, which is the
    only one-dimensional array the endpoint can build). *)
Record ndarray : Type := NdArray { shape : list nat; rows : list (list float) }.

(** Are all rows of length [n]? *)
Definition uniform (n : nat) (xss : list (list float)) : bool :=
  forallb (fun xs => Nat.eqb (length xs) n) xss.

(** [np.array(features)] for [features : list[list[float]]]: the empty
    list gives the array of shape [(0,)]; rows of one length [L] give
    shape [(N, L)]; rows of different lengths are refused. *)
Definition array (features : list (list float)) : Py.result ndarray :=
  match features with
  | [] => Py.ok (NdArray [0%nat] [])
  | r :: _ =>
      if uniform (length r) features
      then Py.ok (NdArray [length features; length r] features)
      else Py.raise Py.ValueError
             "setting an array element with a sequence. The requested array has an inhomogeneous shape"
  end.

(** [a.astype("float32")]. *)
Definition astype_float32 (a : ndarray) : ndarray :=
  NdArray (shape a) (map (map float32) (rows a)).

End Np.

(* ===================================================================== *)
(** ** The settings object *)
(* ===================================================================== *)

(** The fields of [AIConfig] ([src/utils/config.py]); how an instance is
    built from the environment is in [Module Config] below. *)
Record AIConfig : Type := {
  FRAUD_MODEL_LOCAL_PATH : string;
  FRAUD_MODEL_REPO_ID : string;
  FRAUD_THRESHOLD : PyFloat.float;
  HOST : string;
  PORT : Z
}.

(* ===================================================================== *)
(** ** The inference runtime *)
(* ===================================================================== *)

Module Keras.

Import PyFloat.

(** A named output tensor of a forward pass: one row per input row. *)
Abbreviation tensor := (list (list float)).

(** [keras.layers.TFSMLayer(path, call_endpoint="serving_default")]: the
    serving function of a saved model.  The artifact is opaque; all that
    is known of a forward pass is that it raises or returns a dictionary
    of named output tensors. *)
Record TFSMLayer : Type := {
  serving_default : list (list float) -> Py.result (gmap string tensor)
}.

(** [keras.Sequential([keras.layers.Input(shape=(n,)), layer])]. *)
Record Sequential : Type := {
  input_shape : nat;
  layer : TFSMLayer
}.

(** [model.predict(x, verbose=0)]: an array whose shape is not [(N, n)],
    for the declared input shape [(None, n)], is refused; otherwise the
    layer runs on the batch. *)
Definition predict (m : Sequential) (x : Np.ndarray) : Py.result (gmap string tensor) :=
  match Np.shape x with
  | [_; d] =>
      if Nat.eqb d (input_shape m)
      then serving_default (layer m) (Np.rows x)
      else Py.raise Py.ValueError "Input 0 of layer is incompatible with the layer"
  | _ => Py.raise Py.ValueError "Input 0 of layer is incompatible with the layer"
  end.

(** Modelled from the spec: the saved model, which is downloaded from the
    hub and is not among the sources.  Per input row it gives one
    probability-like scalar, under the output name the wrapper reads; [f]
    is the trained network. *)
Definition scalar_layer (f : list float -> float) : TFSMLayer :=
  {| serving_default := fun batch =>
       Py.ok {[ "dense_7" := map (fun row => [f row]) batch ]} |}.

End Keras.

(* ===================================================================== *)
(** ** [src/core/fraud_model.py] *)
(* ===================================================================== *)

Module FraudModel.

Import PyFloat.

(** The instance attributes of [FraudDetectionModel]. *)
Record FraudDetectionModel : Type := {
  repo_id : string;
  model_path : string;
  model : option Keras.Sequential
}.

(** What a method does to the outside, in order. *)
Inductive event : Type :=
| TFSMLayer_open (path : string)
| rmtree (path : string)
| snapshot_download (repo : string) (local_dir : string) (allow_patterns : list string).

(** Counting the calls of one kind in a trace. *)
Definition is_TFSMLayer_open (ev : event) : bool :=
  match ev with TFSMLayer_open _ => true | _ => false end.
Definition is_rmtree (ev : event) : bool :=
  match ev with rmtree _ => true | _ => false end.
Definition is_snapshot_download (ev : event) : bool :=
  match ev with snapshot_download _ _ _ => true | _ => false end.
Definition count (p : event -> bool) (tr : list event) : nat :=
  length (List.filter p tr).

Declare Scope method_scope.

Section State.

(** The contents of a directory tree. *)
Variable dir : Type.

(** The local filesystem, by path, and the calls made so far. *)
Record World : Type := {
  fs : gmap string dir;
  trace : list event
}.

(** The state a method runs in: the instance and the world. *)
Record State : Type := { self : FraudDetectionModel; world : World }.

(** A method body: it may read and write the state and ends with a value
    or an exception; the state survives an exception. *)
Definition M (A : Type) : Type := State -> Py.result A * State.

Definition ret {A} (a : A) : M A := fun s => (inr a, s).
Definition throw {A} (c : Py.exc_class) (msg : string) : M A :=
  fun s => (Py.raise c msg, s).
Definition seq {A B} (c : M A) (k : A -> M B) : M B :=
  fun s => match c s with
           | (inl e, s') => (inl e, s')
           | (inr a, s') => k a s'
           end.
Definition lift {A} (r : Py.result A) : M A := fun s => (r, s).

Definition get_self : M FraudDetectionModel := fun s => (inr (self s), s).
Definition get_fs : M (gmap string dir) := fun s => (inr (fs (world s)), s).
Definition set_model (m : Keras.Sequential) : M unit :=
  fun s => (inr tt,
            {| self := {| repo_id := repo_id (self s);
                          model_path := model_path (self s);
                          model := Some m |};
               world := world s |}).
Definition set_fs (f : gmap string dir) : M unit :=
  fun s => (inr tt, {| self := self s;
                       world := {| fs := f; trace := trace (world s) |} |}).
Definition emit (ev : event) : M unit :=
  fun s => (inr tt, {| self := self s;
                       world := {| fs := fs (world s);
                                   trace := trace (world s) ++ [ev] |} |}).

(** Python's [try: body / except: handler / finally: final].  The bare
    [except] catches every exception of the body; the [finally] block
    runs on every path, and an exception it raises replaces whatever
    was pending. *)
Definition try_except_finally {A} (body handler : M A) (final : M unit) : M A :=
  fun s =>
    let '(r1, s1) := body s in
    let '(r2, s2) := match r1 with
                     | inr a => (inr a, s1)
                     | inl _ => handler s1
                     end in
    match final s2 with
    | (inl e, s3) => (inl e, s3)
    | (inr _, s3) => (r2, s3)
    end.

End State.

Arguments fs {dir} _.
Arguments trace {dir} _.
Arguments Build_World {dir} _ _.
Arguments self {dir} _.
Arguments world {dir} _.
Arguments Build_State {dir} _ _.
Arguments ret {dir A} a _.
Arguments throw {dir A} c msg _.
Arguments seq {dir A B} c k _.
Arguments lift {dir A} r _.
Arguments get_self {dir} _.
Arguments get_fs {dir} _.
Arguments set_model {dir} m _.
Arguments set_fs {dir} f _.
Arguments emit {dir} ev _.
Arguments try_except_finally {dir A} body handler final _.

Notation "x <- c ;; k" := (seq c (fun x => k))
  (at level 100, c at next level, right associativity) : method_scope.
Notation "c ;; k" := (seq c (fun _ => k))
  (at level 100, right associativity) : method_scope.

(** The collaborators the loader calls, which this repository does not
    implement.  [dir] is what a path of the filesystem can hold. *)
Record Collaborators (dir : Type) : Type := {
  (** [keras.layers.TFSMLayer] on a path that holds [d]: the serving
      function of the saved model found there, or an exception when there
      is none or it cannot be read. *)
  load_saved_model : dir -> Py.result Keras.TFSMLayer;
  (** [huggingface_hub.snapshot_download]: the files of a repository that
      match the patterns, or an exception (unknown repository, no
      network). *)
  hub : string -> list string -> Py.result dir;
  (** Writing the files of [new] into a directory that holds [old]. *)
  overwrite : dir -> dir -> dir;
  (** What [shutil.rmtree] raises on a path that holds [d] (a regular
      file, a tree that may not be deleted), if anything. *)
  rmtree_error : dir -> option Py.exn
}.

Arguments load_saved_model {dir} _ _.
Arguments hub {dir} _ _ _.
Arguments overwrite {dir} _ _ _.
Arguments rmtree_error {dir} _ _.

Section Runtime.

Local Open Scope method_scope.

Context {dir : Type}.
Variable rt : Collaborators dir.

(** *** The collaborators, as methods on the world *)

(** [Path(p).exists()]. *)
Definition path_exists (p : string) : M dir bool :=
  f <- get_fs ;;
  ret (bool_decide (is_Some (f !! p))).

(** [shutil.rmtree(p)]: the path is gone when the call returns. *)
Definition shutil_rmtree (p : string) : M dir unit :=
  emit (rmtree p) ;;
  f <- get_fs ;;
  match f !! p with
  | None => throw Py.OSError "No such file or directory"
  | Some d =>
      match rmtree_error rt d with
      | Some e => lift (inl e)
      | None => set_fs (delete p f)
      end
  end.

(** [snapshot_download(repo_id=.., repo_type="model", local_dir=..,
    allow_patterns=..)]: the matching files of the repository are
    written under [local_dir], which is created when missing. *)
Definition hf_snapshot_download (repo local_dir : string) (patterns : list string) : M dir unit :=
  emit (snapshot_download repo local_dir patterns) ;;
  d <- lift (hub rt repo patterns) ;;
  f <- get_fs ;;
  set_fs (match f !! local_dir with
          | None => <[local_dir := d]> f
          | Some old => <[local_dir := overwrite rt d old]> f
          end).

(** [keras.layers.TFSMLayer(path, call_endpoint="serving_default")]. *)
Definition TFSMLayer (path : string) : M dir Keras.TFSMLayer :=
  emit (TFSMLayer_open path) ;;
  f <- get_fs ;;
  match f !! path with
  | None => throw Py.OSError "SavedModel file does not exist"
  | Some d => lift (load_saved_model rt d)
  end.

(** *** The methods of [FraudDetectionModel] *)

Definition allow_patterns : list string :=
  ["saved_model.pb"; "variables/*"; "assets/*"; "keras_metadata.pb"].

(** [_download_model], lines 22-34. *)
Definition _download_model : M dir unit :=
  me <- get_self ;;
  present <- path_exists (model_path me) ;;
  (if present then shutil_rmtree (model_path me) else ret tt) ;;
  hf_snapshot_download (repo_id me) (model_path me) allow_patterns.

(** [initialize_model], lines 36-45: [self.model] is assigned only
    when the layer was built. *)
Definition initialize_model : M dir unit :=
  me <- get_self ;;
  l <- TFSMLayer (model_path me) ;;
  set_model {| Keras.input_shape := 30; Keras.layer := l |}.

(** The [finally] block of [load_model], lines 56-58. *)
Definition check_loaded : M dir unit :=
  me <- get_self ;;
  match model me with
  | None => throw Py.RuntimeError "Model failed to load."
  | Some _ => ret tt
  end.

(** [load_model], lines 47-58. *)
Definition load_model : M dir unit :=
  try_except_finally
    initialize_model
    (_download_model ;; initialize_model)
    check_loaded.

(** [__init__], lines 15-20: the instance that results, or the
    exception [load_model] raised. *)
Definition __init__ (ai_config : AIConfig) (w : World dir)
  : Py.result FraudDetectionModel * World dir :=
  let me := {| repo_id := FRAUD_MODEL_REPO_ID ai_config;
               model_path := FRAUD_MODEL_LOCAL_PATH ai_config;
               model := None |} in
  match load_model {| self := me; world := w |} with
  | (inl e, s) => (inl e, world s)
  | (inr _, s) => (inr (self s), world s)
  end.

(** The decision on one probability, line 64. *)
Definition label (threshold prob : float) : Z :=
  if gt prob threshold then 1 else 0.

(** [predict], lines 60-65.  [ai_config] is the module-level settings
    object the method reads the threshold from. *)
Definition predict (ai_config : AIConfig) (features : Np.ndarray) : M dir (list Z) :=
  me <- get_self ;;
  m <- match model me with
       | Some m => ret m
       | None => throw Py.AttributeError "'NoneType' object has no attribute 'predict'"
       end ;;
  probabilities <- lift (Keras.predict m features) ;;
  dense_7 <- match probabilities !! "dense_7" with
             | Some t => ret t
             | None => throw Py.KeyError "dense_7"
             end ;;
  list_prob <- match dense_7 with
               | row0 :: _ => ret row0
               | [] => throw Py.IndexError "index 0 is out of bounds for axis 0 with size 0"
               end ;;
  ret (map (label (FRAUD_THRESHOLD ai_config)) list_prob).

End Runtime.

(** The model handle of a state, if any, is one [initialize_model] builds:
    it declares thirty inputs. *)
Definition shape_declared {dir} (s : State dir) : Prop :=
  forall m, model (self s) = Some m -> Keras.input_shape m = 30%nat.

End FraudModel.


(* ===================================================================== *)
(** ** [src/api/models.py] and [src/api/routes/fraud_detection.py] *)
(* ===================================================================== *)

Module Api.

Import PyFloat FraudModel.

(** The request body, [{"features": [[...], ...]}]. *)
Record FraudDetectionRequest : Type := { features : list (list float) }.

(** The response body, [{"result": [...]}]. *)
Record FraudDetectionResponse : Type := { result : list Z }.

(** What the caller of [POST /detect] receives: the body with status 200,
    or the status and [{"detail": ...}] of an [HTTPException]. *)
Inductive http_response : Type :=
| Response200 (body : FraudDetectionResponse)
| HTTPException (status_code : Z) (detail : string).

Definition status (r : http_response) : Z :=
  match r with
  | Response200 _ => 200
  | HTTPException c _ => c
  end.

Section Handler.

Context {dir : Type}.

Local Open Scope method_scope.

(** The [try] block of [detect_fraud], lines 17-21, run against the
    module-level [fraud_model] held in the state. *)
Definition detect_try (ai_config : AIConfig) (request : FraudDetectionRequest)
  : M dir FraudDetectionResponse :=
  input_data <- lift (a <- Np.array (features request) ;;
                      Py.ok (Np.astype_float32 a))%py ;;
  result <- predict ai_config input_data ;;
  ret {| result := result |}.

(** [detect_fraud], lines 14-24: [except Exception as e] turns whatever the
    block raised into [HTTPException(status_code=500, detail=str(e))]. *)
Definition detect_fraud (ai_config : AIConfig) (request : FraudDetectionRequest)
  : State dir -> http_response * State dir :=
  fun s =>
    match detect_try ai_config request s with
    | (inr body, s') => (Response200 body, s')
    | (inl e, s') => (HTTPException 500 (Py.str e), s')
    end.

End Handler.

End Api.


(* ===================================================================== *)
(** ** [src/utils/config.py] *)
(* ===================================================================== *)

Module Config.

Import PyFloat.

(** Where settings come from: the process environment as [os.environ]
    holds it once [load_dotenv()] has run, and the entries of the file
    [../.env] that the settings class reads on its own (no entries when the
    file is missing). *)
Record Environment : Type := {
  environ : gmap string string;
  env_file : gmap string string
}.

(** [str.lower] on the ASCII letters. *)
Definition lower_ascii (c : Ascii.ascii) : Ascii.ascii :=
  let n := Ascii.nat_of_ascii c in
  if (Nat.leb 65 n && Nat.leb n 90)%bool then Ascii.ascii_of_nat (n + 32) else c.

Fixpoint lower (s : string) : string :=
  match s with
  | EmptyString => EmptyString
  | String c s' => String (lower_ascii c) (lower s')
  end.

(** One settings source of pydantic-settings with [case_sensitive=False]
    (the default of [BaseSettings]) and [env_ignore_empty=True]: the value
    of an entry whose name is the field's name up to case and whose value
    is not empty. *)
Definition source_lookup (m : gmap string string) (field : string) : option string :=
  snd <$> find (fun kv => String.eqb (lower (fst kv)) (lower field)
                          && negb (String.eqb (snd kv) ""))%bool
               (map_to_list m).

(** The value the sources give a field: the environment before the file. *)
Definition from_sources (env : Environment) (field : string) : option string :=
  match source_lookup (environ env) field with
  | Some v => Some v
  | None => source_lookup (env_file env) field
  end.

(** The conversions of strings to numbers: [float(s)] and [int(s)] of
    Python, and what pydantic applies to a string found in a source for a
    [float] and an [int] field. *)
Record Conversions : Type := {
  py_float : string -> Py.result float;
  py_int : string -> Py.result Z;
  pydantic_float : string -> Py.result float;
  pydantic_int : string -> Py.result Z
}.

Section Parsers.

Variable cv : Conversions.

(** [float(os.getenv(name))]: [float(None)] is a [TypeError]. *)
Definition float_getenv (env : Environment) (name : string) : Py.result float :=
  match environ env !! name with
  | None => Py.raise Py.TypeError "float() argument must be a string or a real number, not 'NoneType'"
  | Some s => py_float cv s
  end.

(** [int(os.getenv(name))]. *)
Definition int_getenv (env : Environment) (name : string) : Py.result Z :=
  match environ env !! name with
  | None => Py.raise Py.TypeError "int() argument must be a string, a bytes-like object or a real number, not 'NoneType'"
  | Some s => py_int cv s
  end.

(** The class attributes the body of [AIConfig] computes, lines 16-21:
    the field defaults. *)
Record Defaults : Type := {
  default_FRAUD_MODEL_LOCAL_PATH : option string;
  default_FRAUD_MODEL_REPO_ID : option string;
  default_FRAUD_THRESHOLD : float;
  default_HOST : option string;
  default_PORT : Z
}.

Definition class_body (env : Environment) : Py.result Defaults :=
  let path := environ env !! "FRAUD_MODEL_LOCAL_PATH" in
  let repo := environ env !! "FRAUD_MODEL_REPO_ID" in
  threshold <- float_getenv env "FRAUD_THRESHOLD" ;;
  let host := environ env !! "HOST" in
  port <- int_getenv env "PORT" ;;
  Py.ok {| default_FRAUD_MODEL_LOCAL_PATH := path;
           default_FRAUD_MODEL_REPO_ID := repo;
           default_FRAUD_THRESHOLD := threshold;
           default_HOST := host;
           default_PORT := port |}.

(** A field annotated [str]: the value of the sources, else the default,
    which [BaseSettings] validates ([validate_default=True]) and [None] is
    no string. *)
Definition str_field (env : Environment) (name : string) (default : option string)
  : Py.result string :=
  match from_sources env name with
  | Some v => Py.ok v
  | None =>
      match default with
      | Some v => Py.ok v
      | None => Py.raise Py.ValidationError "Input should be a valid string"
      end
  end.

(** A field annotated [float]. *)
Definition float_field (env : Environment) (name : string) (default : float)
  : Py.result float :=
  match from_sources env name with
  | Some v => pydantic_float cv v
  | None => Py.ok default
  end.

(** A field annotated [int]. *)
Definition int_field (env : Environment) (name : string) (default : Z)
  : Py.result Z :=
  match from_sources env name with
  | Some v => pydantic_int cv v
  | None => Py.ok default
  end.

(** [AIConfig()], line 23, after the class body ran. *)
Definition instantiate (env : Environment) (d : Defaults) : Py.result AIConfig :=
  path <- str_field env "FRAUD_MODEL_LOCAL_PATH" (default_FRAUD_MODEL_LOCAL_PATH d) ;;
  repo <- str_field env "FRAUD_MODEL_REPO_ID" (default_FRAUD_MODEL_REPO_ID d) ;;
  threshold <- float_field env "FRAUD_THRESHOLD" (default_FRAUD_THRESHOLD d) ;;
  host <- str_field env "HOST" (default_HOST d) ;;
  port <- int_field env "PORT" (default_PORT d) ;;
  Py.ok {| FRAUD_MODEL_LOCAL_PATH := path;
           FRAUD_MODEL_REPO_ID := repo;
           FRAUD_THRESHOLD := threshold;
           HOST := host;
           PORT := port |}.

(** Importing [src/utils/config.py]: the module-level [ai_config]. *)
Definition ai_config (env : Environment) : Py.result AIConfig :=
  d <- class_body env ;;
  instantiate env d.

End Parsers.

(** The names of the settings. *)
Definition settings : list string :=
  ["FRAUD_MODEL_LOCAL_PATH"; "FRAUD_MODEL_REPO_ID"; "FRAUD_THRESHOLD"; "HOST"; "PORT"].

(** A setting is absent when neither source has an entry of its name, in
    any case. *)
Definition absent (env : Environment) (name : string) : Prop :=
  forall k, lower k = lower name ->
            environ env !! k = None /\ env_file env !! k = None.

(** A source holds the value [v] under the name of a setting. *)
Definition provided (env : Environment) (name v : string) : Prop :=
  exists k, lower k = lower name
            /\ (environ env !! k = Some v \/ env_file env !! k = Some v).

End Config.


(* ===================================================================== *)
(** ** [src/api/main.py]: process start *)
(* ===================================================================== *)

Module Main.

Import FraudModel.

(** What a started process holds: the settings, the module-level
    [fraud_model] of the router, and the address [uvicorn.run] binds. *)
Record Server : Type := {
  server_config : AIConfig;
  fraud_model : FraudDetectionModel;
  bind_host : string;
  bind_port : Z
}.

Section Startup.

Context {dir : Type}.
Variable cv : Config.Conversions.
Variable rt : Collaborators dir.

(** Running [main.py]: its imports load the settings
    ([src/utils/config.py], line 23), then build the model
    ([fraud_detection.py], line 10); only then does [uvicorn.run] bind. *)
Definition startup (env : Config.Environment) (w : World dir)
  : Py.result Server * World dir :=
  match Config.ai_config cv env with
  | inl e => (inl e, w)
  | inr cfg =>
      match __init__ rt cfg w with
      | (inl e, w') => (inl e, w')
      | (inr me, w') =>
          (inr {| server_config := cfg;
                  fraud_model := me;
                  bind_host := HOST cfg;
                  bind_port := PORT cfg |}, w')
      end
  end.

End Startup.

End Main.


(* ===================================================================== *)
(** ** Concrete runs *)
(* ===================================================================== *)

(** A small deployment to run the code on: a network that returns the
    first feature of a row as its probability, a local path, a hub with
    one repository, and the threshold one half. *)
Module Fixture.

Import PyFloat FraudModel.

Definition half : float := binary64 1 (-1).
Definition quarter : float := binary64 1 (-2).
Definition three_quarters : float := binary64 3 (-2).
Definition zero : float := S754_zero false.

Definition first_feature (row : list float) : float :=
  match row with
  | x :: _ => x
  | [] => zero
  end.

(** A well-formed row: thirty features, the first one given. *)
Definition row (x : float) : list float := x :: repeat zero 29.

(** What a path can hold: the trained artifact, a directory without a
    readable saved model, a regular file. *)
Inductive artifact : Set := trained | corrupt | regular_file.

(** The collaborators: the hub knows one repository. *)
Definition runtime : Collaborators artifact :=
  {| load_saved_model := fun d =>
       match d with
       | trained => Py.ok (Keras.scalar_layer first_feature)
       | _ => Py.raise Py.OSError "SavedModel file does not exist"
       end;
     hub := fun repo patterns =>
       if String.eqb repo "acme/fraud-model" then Py.ok trained
       else Py.raise Py.OSError "404 Client Error: Repository Not Found";
     overwrite := fun new old => new;
     rmtree_error := fun d =>
       match d with
       | regular_file => Some (Py.Raise Py.OSError "Not a directory")
       | _ => None
       end |}.

Definition cfg : AIConfig :=
  {| FRAUD_MODEL_LOCAL_PATH := "models/fraud";
     FRAUD_MODEL_REPO_ID := "acme/fraud-model";
     FRAUD_THRESHOLD := half;
     HOST := "0.0.0.0";
     PORT := 6060 |}.

Definition sequential : Keras.Sequential :=
  {| Keras.input_shape := 30; Keras.layer := Keras.scalar_layer first_feature |}.

(** A saved model whose forward pass fails, and one whose output has
    another name. *)
Definition failing_layer : Keras.TFSMLayer :=
  {| Keras.serving_default := fun _ =>
       Py.raise Py.RuntimeError "Graph execution error" |}.

Definition renamed_layer : Keras.TFSMLayer :=
  {| Keras.serving_default := fun batch =>
       Py.ok {[ "dense_8" := map (fun row => [first_feature row]) batch ]} |}.

(** A process after a successful start. *)
Definition serving : State artifact :=
  {| self := {| repo_id := "acme/fraud-model";
                model_path := "models/fraud";
                model := Some sequential |};
     world := {| fs := {[ "models/fraud" := trained ]}; trace := [] |} |}.

(** The same process over another saved model. *)
Definition serving_with (l : Keras.TFSMLayer) : State artifact :=
  {| self := {| repo_id := "acme/fraud-model";
                model_path := "models/fraud";
                model := Some {| Keras.input_shape := 30; Keras.layer := l |} |};
     world := world serving |}.

(** An instance as [__init__] leaves it before [load_model], over a
    filesystem [f]. *)
Definition fresh (repo : string) (f : gmap string artifact) : State artifact :=
  {| self := {| repo_id := repo; model_path := "models/fraud"; model := None |};
     world := {| fs := f; trace := [] |} |}.

(** The conversions of strings to numbers, on the strings the runs below
    use. *)
Definition to_float (v : string) : Py.result float :=
  if String.eqb v "0.5" then Py.ok half
  else Py.raise Py.ValueError "could not convert string to float".

Definition to_int (v : string) : Py.result Z :=
  if String.eqb v "6060" then Py.ok 6060
  else Py.raise Py.ValueError "invalid literal for int() with base 10".

Definition conversions : Config.Conversions :=
  {| Config.py_float := to_float;
     Config.py_int := to_int;
     Config.pydantic_float := to_float;
     Config.pydantic_int := to_int |}.

(** An environment with every setting but the bind host. *)
Definition env_without_host : Config.Environment :=
  {| Config.environ :=
       <[ "FRAUD_MODEL_LOCAL_PATH" := "models/fraud" ]>
       (<[ "FRAUD_MODEL_REPO_ID" := "acme/fraud-model" ]>
       (<[ "FRAUD_THRESHOLD" := "0.5" ]>
       (<[ "PORT" := "6060" ]> ∅)));
     Config.env_file := ∅ |}.

(** The same with the bind host. *)
Definition env_complete : Config.Environment :=
  {| Config.environ := <[ "HOST" := "0.0.0.0" ]> (Config.environ env_without_host);
     Config.env_file := ∅ |}.

End Fixture.


(* ===================================================================== *)
(** * Properties *)
(* ===================================================================== *)

(** ** The order of floats *)

Module PyFloatFacts.

Import PyFloat.

Lemma SFcompare_refl (x : float) :
  SFcompare x x = Some Eq \/ SFcompare x x = None.
Proof.
  destruct x as [s|s| |s m e]; cbn.
  - now left.
  - left. now destruct s.
  - now right.
  - left. rewrite Z.compare_refl.
    change (Pos.compare_cont Eq m m) with (m ?= m)%positive.
    rewrite Pos.compare_refl. now destruct s.
Qed.

(** [x > x] is false, NaN included. *)
Lemma gt_irrefl (x : float) : gt x x = false.
Proof.
  unfold gt, SFltb. now destruct (SFcompare_refl x) as [-> | ->].
Qed.

(** Swapping the sides of a comparison reverses its outcome. *)
Lemma SFcompare_antisym (x y : float) :
  SFcompare y x = CompOpp <$> SFcompare x y.
Proof.
  destruct x as [sx|sx| |sx mx ex], y as [sy|sy| |sy my ey]; cbn;
    try destruct sx; try destruct sy; try reflexivity;
    rewrite (Z.compare_antisym ex ey);
    change (Pos.compare_cont Eq mx my) with (mx ?= my)%positive;
    change (Pos.compare_cont Eq my mx) with (my ?= mx)%positive;
    rewrite (Pos.compare_antisym mx my);
    destruct (ex ?= ey); cbn; try reflexivity;
    now destruct (mx ?= my)%positive.
Qed.

(** [x == y] excludes [x > y]. *)
Lemma eqb_not_gt (x y : float) : SFeqb x y = true -> gt x y = false.
Proof.
  unfold gt, SFeqb, SFltb. rewrite (SFcompare_antisym x y).
  now destruct (SFcompare x y) as [[]|].
Qed.

(** The comparison of two finite numbers of one sign, as the order of the
    pairs (exponent, mantissa). *)
Definition lex_lt (e1 : Z) (m1 : positive) (e2 : Z) (m2 : positive) : Prop :=
  e1 < e2 \/ (e1 = e2 /\ (m1 < m2)%positive).

Lemma lex_cmp_Lt e1 m1 e2 m2 :
  match e1 ?= e2 with
  | Eq => Pos.compare_cont Eq m1 m2
  | Lt => Lt
  | Gt => Gt
  end = Lt <-> lex_lt e1 m1 e2 m2.
Proof.
  unfold lex_lt.
  change (Pos.compare_cont Eq m1 m2) with (m1 ?= m2)%positive.
  destruct (Z.compare_spec e1 e2) as [->|H|H].
  - rewrite Pos.compare_lt_iff. split; [now right | intros [?|[_ ?]]; [lia | easy]].
  - split; [now left | easy].
  - split; [easy | intros [?|[? _]]; lia].
Qed.

Lemma lex_cmp_Gt e1 m1 e2 m2 :
  match e1 ?= e2 with
  | Eq => CompOpp (Pos.compare_cont Eq m1 m2)
  | Lt => Gt
  | Gt => Lt
  end = Lt <-> lex_lt e2 m2 e1 m1.
Proof.
  unfold lex_lt.
  change (Pos.compare_cont Eq m1 m2) with (m1 ?= m2)%positive.
  destruct (Z.compare_spec e1 e2) as [->|H|H].
  - rewrite <- Pos.compare_antisym, Pos.compare_lt_iff.
    split; [now right | intros [?|[_ ?]]; [lia | easy]].
  - split; [easy | intros [?|[? _]]; lia].
  - split; [now left | easy].
Qed.

Lemma lex_lt_trans e1 m1 e2 m2 e3 m3 :
  lex_lt e1 m1 e2 m2 -> lex_lt e2 m2 e3 m3 -> lex_lt e1 m1 e3 m3.
Proof. unfold lex_lt. lia. Qed.

Lemma SFltb_finite_pos m1 e1 m2 e2 :
  SFltb (S754_finite false m1 e1) (S754_finite false m2 e2) = true
  <-> lex_lt e1 m1 e2 m2.
Proof.
  rewrite <- lex_cmp_Lt. unfold SFltb. cbn.
  destruct (e1 ?= e2); [destruct (Pos.compare_cont Eq m1 m2) | | ]; easy.
Qed.

Lemma SFltb_finite_neg m1 e1 m2 e2 :
  SFltb (S754_finite true m1 e1) (S754_finite true m2 e2) = true
  <-> lex_lt e2 m2 e1 m1.
Proof.
  rewrite <- lex_cmp_Gt. unfold SFltb. cbn.
  destruct (e1 ?= e2); [destruct (Pos.compare_cont Eq m1 m2) | | ]; easy.
Qed.

(** The IEEE [<] is transitive. *)
Lemma SFltb_trans (a b c : float) :
  SFltb a b = true -> SFltb b c = true -> SFltb a c = true.
Proof.
  destruct a as [sa|sa| |sa ma ea], b as [sb|sb| |sb mb eb],
           c as [sc|sc| |sc mc ec];
    try destruct sa; try destruct sb; try destruct sc;
    try (cbn; easy).
  - rewrite !SFltb_finite_neg. intros H1 H2. exact (lex_lt_trans _ _ _ _ _ _ H2 H1).
  - rewrite !SFltb_finite_pos. apply lex_lt_trans.
Qed.

(** If [p1 < p2] and [p1 > t] then [p2 > t]. *)
Lemma gt_upward (t p1 p2 : float) :
  lt p1 p2 = true -> gt p1 t = true -> gt p2 t = true.
Proof. unfold lt, gt. intros H12 H1. exact (SFltb_trans t p1 p2 H1 H12). Qed.

End PyFloatFacts.


(** ** The inference wrapper *)

Module PredictFacts.

Import PyFloat FraudModel.

Section Predict.

Context {dir : Type}.
Implicit Types (s : State dir) (ai_config : AIConfig) (x : Np.ndarray).

(** The successful path of [predict]: the labels are those of the first
    row of the output named [dense_7]; the state is returned as it was. *)
Lemma predict_ok ai_config x s m out row0 rest :
  model (self s) = Some m ->
  Keras.predict m x = inr out ->
  out !! "dense_7" = Some (row0 :: rest) ->
  predict ai_config x s = (inr (map (label (FRAUD_THRESHOLD ai_config)) row0), s).
Proof.
  intros Hm Hout Hd. unfold predict, seq, get_self, lift, ret.
  rewrite Hm. cbn. rewrite Hout. cbn. rewrite Hd. reflexivity.
Qed.

(** An output without rows: the index [0] is out of bounds. *)
Lemma predict_no_rows ai_config x s m out :
  model (self s) = Some m ->
  Keras.predict m x = inr out ->
  out !! "dense_7" = Some [] ->
  predict ai_config x s
  = (Py.raise Py.IndexError "index 0 is out of bounds for axis 0 with size 0", s).
Proof.
  intros Hm Hout Hd. unfold predict, seq, get_self, lift, ret, throw.
  rewrite Hm. cbn. rewrite Hout. cbn. rewrite Hd. reflexivity.
Qed.

(** An output without the name [dense_7]: a [KeyError]. *)
Lemma predict_no_output ai_config x s m out :
  model (self s) = Some m ->
  Keras.predict m x = inr out ->
  out !! "dense_7" = None ->
  predict ai_config x s = (Py.raise Py.KeyError "dense_7", s).
Proof.
  intros Hm Hout Hd. unfold predict, seq, get_self, lift, ret, throw.
  rewrite Hm. cbn. rewrite Hout. cbn. rewrite Hd. reflexivity.
Qed.

(** The runtime raised: [predict] raises the same exception. *)
Lemma predict_runtime_error ai_config x s m e :
  model (self s) = Some m ->
  Keras.predict m x = inl e ->
  predict ai_config x s = (inl e, s).
Proof.
  intros Hm Hout. unfold predict, seq, get_self, lift, ret, throw.
  rewrite Hm. cbn. rewrite Hout. reflexivity.
Qed.

(** No model: [self.model.predict] is an [AttributeError]. *)
Lemma predict_unloaded ai_config x s :
  model (self s) = None ->
  predict ai_config x s
  = (Py.raise Py.AttributeError "'NoneType' object has no attribute 'predict'", s).
Proof.
  intros Hm. unfold predict, seq, get_self, throw. rewrite Hm. reflexivity.
Qed.


(** Every label is 0 or 1. *)
Lemma label_binary (t p : float) : label t p = 0 \/ label t p = 1.
Proof. unfold label. destruct (gt p t); auto. Qed.

(** The decision is monotone in the probability. *)
Lemma label_monotone (t p1 p2 : float) :
  lt p1 p2 = true -> label t p1 <= label t p2.
Proof.
  intros H. unfold label.
  destruct (gt p1 t) eqn:H1.
  - now rewrite (PyFloatFacts.gt_upward t p1 p2 H H1).
  - destruct (gt p2 t); lia.
Qed.

(** Whatever the model, the labels [predict] returns are 0 or 1. *)
Lemma predict_labels_binary ai_config x s (labels : list Z) :
  fst (predict ai_config x s) = inr labels ->
  Forall (fun l => l = 0 \/ l = 1) labels.
Proof.
  destruct (model (self s)) as [m|] eqn:Hm.
  - destruct (Keras.predict m x) as [e|out] eqn:Hout.
    + now rewrite (predict_runtime_error _ _ _ _ _ Hm Hout).
    + destruct (out !! "dense_7") as [[|row0 rest]|] eqn:Hd.
      * now rewrite (predict_no_rows _ _ _ _ _ Hm Hout Hd).
      * rewrite (predict_ok _ _ _ _ _ _ _ Hm Hout Hd). cbn. intros [= <-].
        apply Forall_forall. intros l Hl.
        apply list_elem_of_fmap in Hl as (p & -> & _). apply label_binary.
      * now rewrite (predict_no_output _ _ _ _ _ Hm Hout Hd).
  - now rewrite (predict_unloaded _ _ _ Hm).
Qed.

(** [np.array] on rows that all have thirty features. *)
Lemma array_well_formed (r : list float) (rs : list (list float)) :
  Forall (fun row => length row = 30%nat) (r :: rs) ->
  Np.array (r :: rs) = inr (Np.NdArray [length (r :: rs); 30%nat] (r :: rs)).
Proof.
  intros H. unfold Np.array.
  assert (Hr : length r = 30%nat) by now inversion H.
  rewrite Hr.
  replace (Np.uniform 30 (r :: rs)) with true; [reflexivity|].
  symmetry. unfold Np.uniform. apply forallb_forall.
  intros row Hin. apply Nat.eqb_eq.
  rewrite Forall_forall in H. apply H. now apply list_elem_of_In.
Qed.

(** With the artifact of the specification (one scalar per row) and a batch
    of [N >= 1] well-formed rows, [predict] returns one label, that of the
    first row: [probabilities["dense_7"][0]] is the output of row 0, not
    the column of all rows. *)
Lemma predict_scalar_layer_first_row ai_config s (f : list float -> float)
    (r : list float) (rs : list (list float)) :
  model (self s)
  = Some {| Keras.input_shape := 30; Keras.layer := Keras.scalar_layer f |} ->
  Forall (fun row => length row = 30%nat) (r :: rs) ->
  exists a,
    Np.array (r :: rs) = inr a
    /\ predict ai_config (Np.astype_float32 a) s
       = (inr [label (FRAUD_THRESHOLD ai_config) (f (map float32 r))], s).
Proof.
  intros Hm Hwf. eexists. split; [now apply array_well_formed|].
  apply (predict_ok ai_config _ s _
           {[ "dense_7" := map (fun row => [f row]) (map (map float32) (r :: rs)) ]}
           [f (map float32 r)]
           (map (fun row => [f row]) (map (map float32) rs)) Hm).
  - reflexivity.
  - apply lookup_singleton_eq.
Qed.

End Predict.

End PredictFacts.


(** ** [predict]: the properties of the specification *)

Module PredictSpec.

Import PyFloat FraudModel PredictFacts.

(** C4.  The decision rule of [predict].  When the forward pass returns,
    the labels [predict] produces are, position by position, those of the
    probabilities it reads (the row at index 0 of the output [dense_7]):
    1 for a probability greater than the configured threshold and 0
    otherwise.  A probability equal to the threshold, be it the same
    number or one that compares equal to it, gets 0. *)
Theorem predict_threshold_rule {dir} (ai_config : AIConfig) (x : Np.ndarray)
    (s : State dir) (m : Keras.Sequential) (out : gmap string Keras.tensor)
    (list_prob : list float) (rest : Keras.tensor) :
  model (self s) = Some m ->
  Keras.predict m x = inr out ->
  out !! "dense_7" = Some (list_prob :: rest) ->
  let t := FRAUD_THRESHOLD ai_config in
  fst (predict ai_config x s)
  = inr (map (fun p => if gt p t then 1 else 0) list_prob)
  /\ (forall p, p = t \/ SFeqb p t = true -> (if gt p t then 1 else 0) = 0).
Proof.
  intros Hm Hout Hd t. split.
  - rewrite (predict_ok ai_config x s m out list_prob rest Hm Hout Hd).
    reflexivity.
  - intros p [-> | Heq].
    + now rewrite PyFloatFacts.gt_irrefl.
    + now rewrite (PyFloatFacts.eqb_not_gt p t Heq).
Qed.

(** The rule on a served request of one row whose probability is the
    threshold itself. *)
Lemma predict_threshold_rule_witness :
  fst (predict Fixture.cfg
         (Np.NdArray [1%nat; 30%nat] [Fixture.row Fixture.half]) Fixture.serving)
  = inr (map (fun p => if gt p Fixture.half then 1 else 0) [Fixture.half])
  /\ (forall p, p = Fixture.half \/ SFeqb p Fixture.half = true ->
                (if gt p Fixture.half then 1 else 0) = 0).
Proof.
  apply (predict_threshold_rule Fixture.cfg
           (Np.NdArray [1%nat; 30%nat] [Fixture.row Fixture.half])
           Fixture.serving Fixture.sequential
           {[ "dense_7" := [[Fixture.half]] ]} [Fixture.half] []);
    reflexivity.
Defined.

(** C7.  The decision is monotone in the probability.  Two requests of one
    row each are served by the same loaded model under the same settings;
    the forward pass gives the first the probability [p1] and the second
    [p2].  If [p1 < p2] then the label returned for the second is at least
    the label returned for the first. *)
Theorem predict_monotone {dir} (ai_config : AIConfig) (s : State dir)
    (m : Keras.Sequential) (x1 x2 : Np.ndarray)
    (out1 out2 : gmap string Keras.tensor) (p1 p2 : float) :
  model (self s) = Some m ->
  Keras.predict m x1 = inr out1 -> out1 !! "dense_7" = Some [[p1]] ->
  Keras.predict m x2 = inr out2 -> out2 !! "dense_7" = Some [[p2]] ->
  lt p1 p2 = true ->
  exists l1 l2 : Z,
    fst (predict ai_config x1 s) = inr [l1]
    /\ fst (predict ai_config x2 s) = inr [l2]
    /\ l1 <= l2.
Proof.
  intros Hm Ho1 Hd1 Ho2 Hd2 Hlt.
  exists (label (FRAUD_THRESHOLD ai_config) p1),
         (label (FRAUD_THRESHOLD ai_config) p2).
  rewrite (predict_ok ai_config x1 s m out1 [p1] [] Hm Ho1 Hd1).
  rewrite (predict_ok ai_config x2 s m out2 [p2] [] Hm Ho2 Hd2).
  repeat split. now apply label_monotone.
Qed.

(** A row scored one quarter and a row scored three quarters. *)
Lemma predict_monotone_witness :
  exists l1 l2 : Z,
    fst (predict Fixture.cfg
           (Np.NdArray [1%nat; 30%nat] [Fixture.row Fixture.quarter])
           Fixture.serving) = inr [l1]
    /\ fst (predict Fixture.cfg
              (Np.NdArray [1%nat; 30%nat] [Fixture.row Fixture.three_quarters])
              Fixture.serving) = inr [l2]
    /\ l1 <= l2.
Proof.
  apply (predict_monotone Fixture.cfg Fixture.serving Fixture.sequential
           (Np.NdArray [1%nat; 30%nat] [Fixture.row Fixture.quarter])
           (Np.NdArray [1%nat; 30%nat] [Fixture.row Fixture.three_quarters])
           {[ "dense_7" := [[Fixture.quarter]] ]}
           {[ "dense_7" := [[Fixture.three_quarters]] ]}
           Fixture.quarter Fixture.three_quarters);
    reflexivity.
Defined.


(** C1.  A batch of two well-formed rows, the first scored one quarter and
    the second three quarters by the network, threshold one half.  Each row
    alone is labelled as expected, 0 and 1; the batch of both gets the
    single label of its first row, where one label per row, [0; 1], is
    specified. *)
Theorem predict_two_rows_one_label :
  let r1 := Fixture.row Fixture.quarter in
  let r2 := Fixture.row Fixture.three_quarters in
  let batch rows := Np.astype_float32 (Np.NdArray [length rows; 30%nat] rows) in
  Np.array [r1; r2] = inr (Np.NdArray [2%nat; 30%nat] [r1; r2])
  /\ fst (predict Fixture.cfg (batch [r1]) Fixture.serving) = inr [0]
  /\ fst (predict Fixture.cfg (batch [r2]) Fixture.serving) = inr [1]
  /\ fst (predict Fixture.cfg (batch [r1; r2]) Fixture.serving) = inr [0].
Proof. cbv zeta. repeat split; vm_compute; reflexivity. Qed.

End PredictSpec.


(** ** The endpoint *)

Module EndpointFacts.

Import PyFloat FraudModel Api PredictFacts.

Section Endpoint.

Context {dir : Type}.
Implicit Types (s : State dir) (ai_config : AIConfig) (request : FraudDetectionRequest).

(** The [try] block, step by step: the conversion of the body to an array,
    then [predict]. *)
Lemma detect_try_array_error ai_config request s e :
  Np.array (features request) = inl e ->
  detect_try ai_config request s = (inl e, s).
Proof.
  intros H. unfold detect_try, seq, lift. now rewrite H.
Qed.

Lemma detect_try_predict ai_config request s a :
  Np.array (features request) = inr a ->
  detect_try ai_config request s
  = match predict ai_config (Np.astype_float32 a) s with
    | (inl e, s') => (inl e, s')
    | (inr labels, s') => (inr {| result := labels |}, s')
    end.
Proof.
  intros H. unfold detect_try, seq, lift, ret. rewrite H. cbn.
  now destruct (predict ai_config (Np.astype_float32 a) s) as [[e|labels] s'].
Qed.



(** A raising [try] block gives the response of the [except] clause. *)
Lemma detect_fraud_raised ai_config request s e s' :
  detect_try ai_config request s = (inl e, s') ->
  detect_fraud ai_config request s = (HTTPException 500 (Py.str e), s').
Proof. intros H. unfold detect_fraud. now rewrite H. Qed.


End Endpoint.

End EndpointFacts.


(** ** [POST /detect]: the properties of the specification *)

Module EndpointSpec.

Import PyFloat FraudModel Api PredictFacts EndpointFacts.

(** C3.  Whatever exception [e] the body of the handler raises (the
    conversion of the request to an array, the forward pass, the reading of
    its output), the caller receives status 500 with [{"detail": str(e)}];
    the class of [e] does not show in the status. *)
Theorem detect_fraud_exception_is_500 {dir} (ai_config : AIConfig)
    (request : FraudDetectionRequest) (s s' : State dir) (e : Py.exn) :
  detect_try ai_config request s = (inl e, s') ->
  detect_fraud ai_config request s = (HTTPException 500 (Py.str e), s')
  /\ status (fst (detect_fraud ai_config request s)) = 500.
Proof.
  intros H. rewrite (detect_fraud_raised ai_config request s e s' H).
  split; reflexivity.
Qed.

(** A request whose rows differ in length: numpy refuses it. *)
Lemma detect_fraud_exception_is_500_witness :
  let request := {| features := [Fixture.row Fixture.half; [Fixture.half]] |} in
  let e := Py.Raise Py.ValueError
             "setting an array element with a sequence. The requested array has an inhomogeneous shape" in
  detect_fraud Fixture.cfg request Fixture.serving
  = (HTTPException 500 (Py.str e), Fixture.serving)
  /\ status (fst (detect_fraud Fixture.cfg request Fixture.serving)) = 500.
Proof.
  cbv zeta.
  apply (detect_fraud_exception_is_500 Fixture.cfg
           {| features := [Fixture.row Fixture.half; [Fixture.half]] |}
           Fixture.serving Fixture.serving).
  reflexivity.
Defined.

(** The failures of the forward pass and of the reading of its output get
    the same status; only the text differs. *)
Example detect_fraud_model_error :
  fst (detect_fraud Fixture.cfg {| features := [Fixture.row Fixture.half] |}
         (Fixture.serving_with Fixture.failing_layer))
  = HTTPException 500 "Graph execution error".
Proof. vm_compute. reflexivity. Qed.

Example detect_fraud_missing_output :
  fst (detect_fraud Fixture.cfg {| features := [Fixture.row Fixture.half] |}
         (Fixture.serving_with Fixture.renamed_layer))
  = HTTPException 500 "'dense_7'".
Proof. vm_compute. reflexivity. Qed.

Example detect_fraud_wrong_width :
  fst (detect_fraud Fixture.cfg {| features := [[Fixture.half]] |} Fixture.serving)
  = HTTPException 500 "Input 0 of layer is incompatible with the layer".
Proof. vm_compute. reflexivity. Qed.

(** A well-formed request of one row is served. *)
Example detect_fraud_one_row :
  fst (detect_fraud Fixture.cfg
         {| features := [Fixture.row Fixture.three_quarters] |} Fixture.serving)
  = Response200 {| result := [1] |}.
Proof. vm_compute. reflexivity. Qed.

(** C5, as specified, on a served process: the empty batch is not answered
    with [{"result": []}]. *)
Lemma detect_fraud_empty_batch_not_200 :
  fst (detect_fraud Fixture.cfg {| features := [] |} Fixture.serving)
  <> Response200 {| result := [] |}.
Proof. vm_compute. discriminate. Qed.

(** C5, amended.  The empty batch is answered with status 500: [np.array]
    of the empty list has shape [(0,)], which is not the declared input
    shape, so the forward pass raises and the handler reports it.  This
    holds for every model handle. *)
Theorem detect_fraud_empty_batch {dir} (ai_config : AIConfig) (s : State dir) :
  exists detail : string,
    detect_fraud ai_config {| features := [] |} s = (HTTPException 500 detail, s).
Proof.
  destruct (model (self s)) as [m|] eqn:Hm.
  - eexists. apply detect_fraud_raised.
    rewrite (detect_try_predict ai_config {| features := [] |} s
               (Np.NdArray [0%nat] []) eq_refl).
    now rewrite (predict_runtime_error ai_config
                   (Np.astype_float32 (Np.NdArray [0%nat] [])) s m
                   (Py.Raise Py.ValueError "Input 0 of layer is incompatible with the layer")
                   Hm eq_refl).
  - eexists. apply detect_fraud_raised.
    rewrite (detect_try_predict ai_config {| features := [] |} s
               (Np.NdArray [0%nat] []) eq_refl).
    now rewrite (predict_unloaded ai_config _ s Hm).
Qed.



End EndpointSpec.


(** ** The loader *)

Module LoaderFacts.

Import FraudModel.

Section Loader.

Context {dir : Type}.
Variable rt : Collaborators dir.

Implicit Types (s : State dir).

(** The state with one more call recorded, with another filesystem, with
    a model handle. *)
Definition logged s (ev : event) : State dir :=
  {| self := self s;
     world := {| fs := fs (world s); trace := trace (world s) ++ [ev] |} |}.

Definition with_fs s (f : gmap string dir) : State dir :=
  {| self := self s; world := {| fs := f; trace := trace (world s) |} |}.

Definition with_model s (m : Keras.Sequential) : State dir :=
  {| self := {| repo_id := repo_id (self s);
                model_path := model_path (self s);
                model := Some m |};
     world := world s |}.

(** The model handle [initialize_model] builds from a layer. *)
Definition handle (l : Keras.TFSMLayer) : Keras.Sequential :=
  {| Keras.input_shape := 30; Keras.layer := l |}.

(** What a construction attempt finds at the local path. *)
Definition found s : Py.result Keras.TFSMLayer :=
  match fs (world s) !! model_path (self s) with
  | None => Py.raise Py.OSError "SavedModel file does not exist"
  | Some d => load_saved_model rt d
  end.

(** What the [rmtree] of [_download_model] raises, if it is called and
    raises. *)
Definition wipe_error s : option Py.exn :=
  fs (world s) !! model_path (self s) ≫= rmtree_error rt.

(** The state after lines 23-25 of [_download_model]. *)
Definition wiped s : State dir :=
  let p := model_path (self s) in
  match fs (world s) !! p with
  | None => s
  | Some d =>
      match rmtree_error rt d with
      | Some _ => logged s (rmtree p)
      | None => with_fs (logged s (rmtree p)) (delete p (fs (world s)))
      end
  end.

(** The state when [snapshot_download] has been called. *)
Definition requested s : State dir :=
  logged (wiped s)
         (snapshot_download (repo_id (self s)) (model_path (self s)) allow_patterns).

(** The state in which the construction is retried: the download wrote
    [d] at the local path. *)
Definition refetched s (d : dir) : State dir :=
  let s1 := logged s (TFSMLayer_open (model_path (self s))) in
  with_fs (requested s1) (<[model_path (self s) := d]> (fs (world (wiped s1)))).

(** What the [finally] block makes of an exception [e] that is pending
    when it runs: without a model handle its own [RuntimeError] replaces
    [e], with one [e] propagates. *)
Definition pending (m : option Keras.Sequential) (e : Py.exn) : Py.result unit :=
  match m with
  | None => Py.raise Py.RuntimeError "Model failed to load."
  | Some _ => inl e
  end.

(** [load_model], path by path. *)
Definition load_model_paths s : Py.result unit * State dir :=
  let open := TFSMLayer_open (model_path (self s)) in
  match found s with
  | inr l => (inr tt, with_model (logged s open) (handle l))
  | inl _ =>
      match wipe_error s with
      | Some e => (pending (model (self s)) e, wiped (logged s open))
      | None =>
          match hub rt (repo_id (self s)) allow_patterns with
          | inl e => (pending (model (self s)) e, requested (logged s open))
          | inr d =>
              match load_saved_model rt d with
              | inl e => (pending (model (self s)) e, logged (refetched s d) open)
              | inr l =>
                  (inr tt, with_model (logged (refetched s d) open) (handle l))
              end
          end
      end
  end.

(** The calls [load_model] makes after a failed first attempt: the
    [rmtree] when the local path exists; when that did not raise, the
    download; when that returned, the second construction attempt. *)
Definition recovery_calls s : list event :=
  let p := model_path (self s) in
  (if bool_decide (is_Some (fs (world s) !! p)) then [rmtree p] else [])
  ++ match wipe_error s with
     | Some _ => []
     | None =>
         [snapshot_download (repo_id (self s)) p allow_patterns]
         ++ (if Py.is_ok (hub rt (repo_id (self s)) allow_patterns)
             then [TFSMLayer_open p] else [])
     end.

(** *** The steps *)

Lemma initialize_model_raises s e :
  found s = inl e ->
  initialize_model rt s = (inl e, logged s (TFSMLayer_open (model_path (self s)))).
Proof.
  unfold found, initialize_model, TFSMLayer, seq, get_self, get_fs, emit, lift, throw.
  cbn. destruct (fs (world s) !! model_path (self s)) as [d|]; cbn.
  - now intros ->.
  - now intros [= <-].
Qed.

Lemma initialize_model_returns s l :
  found s = inr l ->
  initialize_model rt s
  = (inr tt,
     with_model (logged s (TFSMLayer_open (model_path (self s)))) (handle l)).
Proof.
  unfold found, initialize_model, TFSMLayer, seq, get_self, get_fs, emit, lift, throw.
  cbn. destruct (fs (world s) !! model_path (self s)) as [d|]; cbn.
  - now intros ->.
  - discriminate.
Qed.

Lemma wiped_self s : self (wiped s) = self s.
Proof.
  unfold wiped. destruct (fs (world s) !! model_path (self s)) as [d|]; [|reflexivity].
  now destruct (rmtree_error rt d).
Qed.

Lemma wiped_trace s :
  trace (world (wiped s))
  = trace (world s)
    ++ (if bool_decide (is_Some (fs (world s) !! model_path (self s)))
        then [rmtree (model_path (self s))] else []).
Proof.
  unfold wiped. destruct (fs (world s) !! model_path (self s)) as [d|] eqn:E.
  - rewrite bool_decide_eq_true_2 by eauto. now destruct (rmtree_error rt d).
  - rewrite bool_decide_eq_false_2 by (intros [? ?]; discriminate).
    now rewrite app_nil_r.
Qed.

(** After an [rmtree] that did not raise, the local path is absent and
    every other path is as it was. *)
Lemma wiped_fs s :
  wipe_error s = None ->
  fs (world (wiped s)) = delete (model_path (self s)) (fs (world s)).
Proof.
  unfold wipe_error, wiped.
  destruct (fs (world s) !! model_path (self s)) as [d|] eqn:E; cbn.
  - now intros ->.
  - intros _. symmetry. now apply delete_id.
Qed.

Lemma wiped_absent s :
  wipe_error s = None ->
  fs (world (wiped s)) !! model_path (self s) = None.
Proof. intros H. rewrite (wiped_fs s H). apply lookup_delete_eq. Qed.

Lemma download_model_wipe_raises s e :
  wipe_error s = Some e ->
  _download_model rt s = (inl e, wiped s).
Proof.
  unfold wipe_error, wiped, _download_model, path_exists, shutil_rmtree,
    hf_snapshot_download, seq, get_self, get_fs, set_fs, emit, lift, ret, throw.
  cbn. destruct (fs (world s) !! model_path (self s)) as [d|] eqn:E; cbn; [|discriminate].
  rewrite E. intros ->. reflexivity.
Qed.

Lemma download_model_raises s e :
  wipe_error s = None ->
  hub rt (repo_id (self s)) allow_patterns = inl e ->
  _download_model rt s = (inl e, requested s).
Proof.
  unfold wipe_error, requested, wiped, _download_model, path_exists, shutil_rmtree,
    hf_snapshot_download, seq, get_self, get_fs, set_fs, emit, lift, ret, throw.
  cbn. intros Hw Hh.
  destruct (fs (world s) !! model_path (self s)) as [d|] eqn:E; cbn in *.
  - rewrite E, Hw. cbn. now rewrite Hh.
  - now rewrite Hh.
Qed.

Lemma download_model_returns s d :
  wipe_error s = None ->
  hub rt (repo_id (self s)) allow_patterns = inr d ->
  _download_model rt s
  = (inr tt,
     with_fs (requested s) (<[model_path (self s) := d]> (fs (world (wiped s))))).
Proof.
  unfold wipe_error, requested, wiped, _download_model, path_exists, shutil_rmtree,
    hf_snapshot_download, seq, get_self, get_fs, set_fs, emit, lift, ret, throw.
  cbn. intros Hw Hh.
  destruct (fs (world s) !! model_path (self s)) as [d0|] eqn:E; cbn in *.
  - rewrite E, Hw. cbn. rewrite Hh. cbn. now rewrite lookup_delete_eq.
  - rewrite Hh. cbn. now rewrite E.
Qed.

Lemma check_loaded_some s m :
  model (self s) = Some m -> check_loaded s = (inr tt, s).
Proof. intros H. unfold check_loaded, seq, get_self, ret. now rewrite H. Qed.

Lemma check_loaded_none s :
  model (self s) = None ->
  check_loaded s = (Py.raise Py.RuntimeError "Model failed to load.", s).
Proof. intros H. unfold check_loaded, seq, get_self, throw. now rewrite H. Qed.

(** The [finally] block after a handler that raised [e]. *)
Lemma finally_pending s s' e :
  model (self s') = model (self s) ->
  match check_loaded s' with
  | (inl e', s3) => (inl e', s3)
  | (inr _, s3) => (inl e, s3)
  end = (pending (model (self s)) e, s').
Proof.
  intros Hm. destruct (model (self s)) as [m|] eqn:E.
  - now rewrite (check_loaded_some s' m Hm).
  - now rewrite (check_loaded_none s' Hm).
Qed.

Lemma refetched_self s d : self (refetched s d) = self s.
Proof. unfold refetched. cbn. now rewrite wiped_self. Qed.

Lemma found_refetched s d : found (refetched s d) = load_saved_model rt d.
Proof.
  unfold found. rewrite refetched_self. unfold refetched. cbn.
  now rewrite lookup_insert_eq.
Qed.

(** *** The whole method *)

Lemma load_model_eq s : load_model rt s = load_model_paths s.
Proof.
  unfold load_model, load_model_paths, try_except_finally.
  destruct (found s) as [e1|l] eqn:Hf.
  - rewrite (initialize_model_raises s e1 Hf).
    set (s1 := logged s (TFSMLayer_open (model_path (self s)))).
    unfold seq at 1.
    change (wipe_error s) with (wipe_error s1).
    destruct (wipe_error s1) as [e0|] eqn:Hw.
    + rewrite (download_model_wipe_raises s1 e0 Hw).
      apply (finally_pending s (wiped s1) e0). now rewrite wiped_self.
    + destruct (hub rt (repo_id (self s)) allow_patterns) as [e2|d] eqn:Hh.
      * rewrite (download_model_raises s1 e2 Hw Hh).
        apply (finally_pending s (requested s1) e2).
        unfold requested. cbn. now rewrite wiped_self.
      * rewrite (download_model_returns s1 d Hw Hh).
        change (with_fs (requested s1) _) with (refetched s d).
        pose proof (found_refetched s d) as Hf2.
        pose proof (refetched_self s d) as Hself.
        destruct (load_saved_model rt d) as [e3|l] eqn:Hl.
        -- rewrite (initialize_model_raises (refetched s d) e3 Hf2), Hself.
           apply (finally_pending s). exact (f_equal model Hself).
        -- rewrite (initialize_model_returns (refetched s d) l Hf2), Hself.
           now rewrite (check_loaded_some _ (handle l)).
  - rewrite (initialize_model_returns s l Hf).
    now rewrite (check_loaded_some _ (handle l)).
Qed.

(** A first attempt that fails is one that finds nothing loadable. *)
Lemma first_attempt_raises s e :
  fst (initialize_model rt s) = inl e -> found s = inl e.
Proof.
  destruct (found s) as [e'|l] eqn:Hf.
  - rewrite (initialize_model_raises s e' Hf). cbn. congruence.
  - now rewrite (initialize_model_returns s l Hf).
Qed.

Lemma first_attempt_returns s s1 :
  initialize_model rt s = (inr tt, s1) ->
  exists l, found s = inr l
            /\ s1 = with_model (logged s (TFSMLayer_open (model_path (self s))))
                               (handle l).
Proof.
  destruct (found s) as [e'|l] eqn:Hf.
  - now rewrite (initialize_model_raises s e' Hf).
  - rewrite (initialize_model_returns s l Hf). intros [= <-]. now exists l.
Qed.

(** The trace of a run whose first attempt failed. *)
Lemma load_model_recovery_trace s e :
  found s = inl e ->
  trace (world (snd (load_model rt s)))
  = trace (world s) ++ [TFSMLayer_open (model_path (self s))] ++ recovery_calls s.
Proof.
  intros Hf. rewrite load_model_eq. unfold load_model_paths, recovery_calls.
  rewrite Hf.
  set (open := TFSMLayer_open (model_path (self s))).
  assert (Hw : trace (world (wiped (logged s open)))
               = trace (world s) ++ [open]
                 ++ (if bool_decide (is_Some (fs (world s) !! model_path (self s)))
                     then [rmtree (model_path (self s))] else [])).
  { rewrite wiped_trace. cbn. now rewrite <- app_assoc. }
  destruct (wipe_error s) as [e0|].
  - cbn [snd]. rewrite Hw. now rewrite app_nil_r.
  - destruct (hub rt (repo_id (self s)) allow_patterns) as [e2|d]; cbn [Py.is_ok].
    + cbn [snd requested logged world trace self]. rewrite Hw, app_nil_r.
      now rewrite <- !app_assoc.
    + assert (Ht : trace (world (logged (refetched s d) open))
                   = trace (world s) ++ [open]
                     ++ (if bool_decide (is_Some (fs (world s) !! model_path (self s)))
                         then [rmtree (model_path (self s))] else [])
                     ++ [snapshot_download (repo_id (self s)) (model_path (self s))
                           allow_patterns]
                     ++ [open]).
      { unfold refetched. cbn [logged with_fs requested world trace self].
        fold open. rewrite Hw. now rewrite <- !app_assoc. }
      now destruct (load_saved_model rt d).
Qed.

(** The filesystem of a run whose first attempt failed, whose [rmtree] did
    not raise and whose download returned [d]: the local path holds [d],
    other paths are untouched. *)
Lemma load_model_recovery_fs s e d :
  found s = inl e ->
  wipe_error s = None ->
  hub rt (repo_id (self s)) allow_patterns = inr d ->
  fs (world (snd (load_model rt s)))
  = <[model_path (self s) := d]> (fs (world s)).
Proof.
  intros Hf Hw Hh. rewrite load_model_eq. unfold load_model_paths.
  rewrite Hf, Hw, Hh.
  assert (Hfs : fs (world (refetched s d))
                = <[model_path (self s) := d]> (fs (world s))).
  { unfold refetched. cbn. rewrite wiped_fs by exact Hw. cbn. apply insert_delete_eq. }
  now destruct (load_saved_model rt d).
Qed.

(** A run that returns leaves a model handle. *)
Lemma load_model_returns_loaded s :
  fst (load_model rt s) = inr tt ->
  exists m, model (self (snd (load_model rt s))) = Some m.
Proof.
  rewrite load_model_eq. unfold load_model_paths, pending.
  destruct (found s) as [e1|l]; [|cbn; eauto].
  destruct (wipe_error s) as [e0|].
  { cbn. destruct (model (self s)); discriminate. }
  destruct (hub rt (repo_id (self s)) allow_patterns) as [e2|d].
  - cbn. destruct (model (self s)); discriminate.
  - destruct (load_saved_model rt d) as [e3|l]; [|cbn; eauto].
    cbn. destruct (model (self s)); discriminate.
Qed.

(** A run that ends without a model handle raised the [RuntimeError]. *)
Lemma load_model_unloaded_raises s :
  model (self (snd (load_model rt s))) = None ->
  fst (load_model rt s) = Py.raise Py.RuntimeError "Model failed to load.".
Proof.
  rewrite load_model_eq. unfold load_model_paths.
  destruct (found s) as [e1|l]; [|cbn; discriminate].
  destruct (wipe_error s) as [e0|].
  { cbn [fst snd]. rewrite wiped_self. cbn. now intros ->. }
  destruct (hub rt (repo_id (self s)) allow_patterns) as [e2|d].
  - cbn. rewrite wiped_self. cbn. now intros ->.
  - destruct (load_saved_model rt d) as [e3|l]; [|cbn; discriminate].
    cbn [fst snd logged self]. rewrite refetched_self. now intros ->.
Qed.

(** [load_model] keeps the declared input shape at thirty. *)
Lemma load_model_shape_declared s :
  shape_declared s ->
  shape_declared (snd (load_model rt s)).
Proof.
  intros Hinv. rewrite load_model_eq. unfold load_model_paths.
  assert (Hnew : forall s0 l, shape_declared (with_model s0 (handle l))).
  { intros s0 l m. cbn. now intros [= <-]. }
  destruct (found s) as [e1|l]; [|apply Hnew].
  destruct (wipe_error s) as [e0|].
  { intros m. cbn [snd]. rewrite wiped_self. cbn. apply Hinv. }
  destruct (hub rt (repo_id (self s)) allow_patterns) as [e2|d].
  - intros m. cbn. rewrite wiped_self. cbn. apply Hinv.
  - destruct (load_saved_model rt d) as [e3|l]; [|apply Hnew].
    intros m. cbn [snd logged self]. rewrite refetched_self. apply Hinv.
Qed.

End Loader.

End LoaderFacts.


(** ** Process start *)

Module MainFacts.

Import FraudModel LoaderFacts.

Section Startup.

Context {dir : Type}.
Variable cv : Config.Conversions.
Variable rt : Collaborators dir.

(** An instance that [__init__] returned has a model handle, and the
    handle declares thirty inputs. *)
Lemma init_loaded (ai_config : AIConfig) (w w' : World dir) (me : FraudDetectionModel) :
  __init__ rt ai_config w = (inr me, w') ->
  (exists m, model me = Some m)
  /\ shape_declared {| self := me; world := w' |}.
Proof.
  unfold __init__.
  set (s0 := {| self := {| repo_id := FRAUD_MODEL_REPO_ID ai_config;
                           model_path := FRAUD_MODEL_LOCAL_PATH ai_config;
                           model := None |};
                world := w |}).
  assert (H0 : shape_declared s0) by (intros m; discriminate).
  pose proof (load_model_shape_declared rt s0 H0) as Hshape.
  pose proof (load_model_returns_loaded rt s0) as Hloaded.
  destruct (load_model rt s0) as [[e|[]] s1]; [discriminate|].
  intros [= <- <-]. split.
  - now apply Hloaded.
  - intros m. apply Hshape.
Qed.

(** The same of a process that started. *)
Lemma startup_loaded (env : Config.Environment) (w w' : World dir) (srv : Main.Server) :
  Main.startup cv rt env w = (inr srv, w') ->
  (exists m, model (Main.fraud_model srv) = Some m)
  /\ shape_declared {| self := Main.fraud_model srv; world := w' |}.
Proof.
  unfold Main.startup.
  destruct (Config.ai_config cv env) as [e|cfg]; [discriminate|].
  destruct (__init__ rt cfg w) as [[e|me] w1] eqn:Hinit; [discriminate|].
  intros [= <- <-]. cbn. apply (init_loaded cfg w w1 me Hinit).
Qed.

End Startup.

End MainFacts.

(** ** [load_model]: the properties of the specification *)

Module LoaderSpec.

Import FraudModel LoaderFacts.

(** C2, as specified, on a corrupt local artifact and a repository the hub
    does not know: the first construction attempt fails, yet the run does
    not consist of one wipe, one download and two construction attempts;
    the download raises and construction is not retried. *)
Lemma load_model_download_raises_no_retry :
  let s := Fixture.fresh "nobody/none" {[ "models/fraud" := Fixture.corrupt ]} in
  let run := load_model Fixture.runtime s in
  ~ (Py.is_ok (fst (initialize_model Fixture.runtime s)) = false ->
     count is_rmtree (trace (world (snd run))) = 1%nat
     /\ count is_snapshot_download (trace (world (snd run))) = 1%nat
     /\ count is_TFSMLayer_open (trace (world (snd run))) = 2%nat).
Proof.
  cbv zeta. intros H. specialize (H eq_refl).
  destruct H as (_ & _ & H). vm_compute in H. discriminate.
Qed.

(** The run of that start, in full: the failed attempt, the wipe, the
    download that raises, and the [RuntimeError] of the [finally] block. *)
Example load_model_unknown_repository :
  let s := Fixture.fresh "nobody/none" {[ "models/fraud" := Fixture.corrupt ]} in
  let run := load_model Fixture.runtime s in
  fst run = Py.raise Py.RuntimeError "Model failed to load."
  /\ trace (world (snd run))
     = [TFSMLayer_open "models/fraud";
        rmtree "models/fraud";
        snapshot_download "nobody/none" "models/fraud" allow_patterns].
Proof. cbv zeta. split; vm_compute; reflexivity. Qed.

(** On a fresh installation the local path does not exist and nothing is
    deleted: the run is a failed attempt, the download and the retry. *)
Example load_model_missing_path :
  let s := Fixture.fresh "acme/fraud-model" ∅ in
  let run := load_model Fixture.runtime s in
  fst run = inr tt
  /\ trace (world (snd run))
     = [TFSMLayer_open "models/fraud";
        snapshot_download "acme/fraud-model" "models/fraud" allow_patterns;
        TFSMLayer_open "models/fraud"].
Proof. cbv zeta. split; vm_compute; reflexivity. Qed.

(** A local path that is a regular file: [rmtree] raises, and neither the
    download nor the retry takes place. *)
Example load_model_path_is_a_file :
  let s := Fixture.fresh "acme/fraud-model" {[ "models/fraud" := Fixture.regular_file ]} in
  let run := load_model Fixture.runtime s in
  fst run = Py.raise Py.RuntimeError "Model failed to load."
  /\ trace (world (snd run))
     = [TFSMLayer_open "models/fraud"; rmtree "models/fraud"].
Proof. cbv zeta. split; vm_compute; reflexivity. Qed.

(** C2, amended.  [load_model] ends with a model handle or raises: a run
    that returns leaves the handle set, and a run that ends with the handle
    unset raised [RuntimeError("Model failed to load.")].  When the first
    construction attempt fails, for whatever reason, what follows is one
    wipe-and-refetch attempt and at most one retry: the local path is
    deleted recursively if it exists (there is no deletion otherwise); if
    the deletion did not raise, the download of the allow-listed files is
    called once; if the download returned, construction is retried once.
    Nothing else is called.  A download that returned [d] leaves [d] at
    the local path and every other path as it was. *)
Theorem load_model_recovery {dir} (rt : Collaborators dir) (s : State dir) :
  let p := model_path (self s) in
  let repo := repo_id (self s) in
  let run := load_model rt s in
  let wipe_raised := fs (world s) !! p ≫= rmtree_error rt in
  (fst run = inr tt -> exists m, model (self (snd run)) = Some m)
  /\ (model (self (snd run)) = None ->
      fst run = Py.raise Py.RuntimeError "Model failed to load.")
  /\ (forall e, fst (initialize_model rt s) = inl e ->
      trace (world (snd run))
      = trace (world s)
        ++ [TFSMLayer_open p]
        ++ (if bool_decide (is_Some (fs (world s) !! p)) then [rmtree p] else [])
        ++ match wipe_raised with
           | Some _ => []
           | None =>
               [snapshot_download repo p allow_patterns]
               ++ (if Py.is_ok (hub rt repo allow_patterns)
                   then [TFSMLayer_open p] else [])
           end)
  /\ (forall e d, fst (initialize_model rt s) = inl e ->
      wipe_raised = None ->
      hub rt repo allow_patterns = inr d ->
      fs (world (snd run)) = <[p := d]> (fs (world s))).
Proof.
  cbv zeta. repeat split.
  - apply load_model_returns_loaded.
  - apply load_model_unloaded_raises.
  - intros e He. apply first_attempt_raises in He.
    apply (load_model_recovery_trace rt s e He).
  - intros e d He Hw Hd. apply first_attempt_raises in He.
    apply (load_model_recovery_fs rt s e d He Hw Hd).
Qed.

(** The recovery on a corrupt local artifact with a reachable repository:
    one [rmtree], one download, one retry. *)
Lemma load_model_recovery_witness :
  let s := Fixture.fresh "acme/fraud-model" {[ "models/fraud" := Fixture.corrupt ]} in
  trace (world (snd (load_model Fixture.runtime s)))
  = [] ++ [TFSMLayer_open "models/fraud"]
       ++ [rmtree "models/fraud"]
       ++ [snapshot_download "acme/fraud-model" "models/fraud" allow_patterns]
       ++ [TFSMLayer_open "models/fraud"].
Proof.
  exact (proj1 (proj2 (proj2
           (load_model_recovery Fixture.runtime
              (Fixture.fresh "acme/fraud-model" {[ "models/fraud" := Fixture.corrupt ]}))))
           (Py.Raise Py.OSError "SavedModel file does not exist") eq_refl).
Defined.

(** C10.  When the first construction attempt succeeds, [load_model] is
    that attempt and nothing more: it returns in the state the attempt
    left, the filesystem is the one it started with, and the only call
    recorded is the construction; there is no [rmtree] and no
    [snapshot_download]. *)
Theorem load_model_first_attempt_frame {dir} (rt : Collaborators dir)
    (s s1 : State dir) :
  initialize_model rt s = (inr tt, s1) ->
  load_model rt s = (inr tt, s1)
  /\ fs (world s1) = fs (world s)
  /\ trace (world s1) = trace (world s) ++ [TFSMLayer_open (model_path (self s))]
  /\ count is_rmtree (trace (world s1)) = count is_rmtree (trace (world s))
  /\ count is_snapshot_download (trace (world s1))
     = count is_snapshot_download (trace (world s)).
Proof.
  intros H.
  destruct (first_attempt_returns rt s s1 H) as (l & Hf & ->).
  rewrite load_model_eq. unfold load_model_paths. rewrite Hf.
  repeat split; cbn; unfold count;
    rewrite List.filter_app, length_app; cbn; lia.
Qed.

(** A start over a local path that holds the trained artifact. *)
Lemma load_model_first_attempt_frame_witness :
  let s := Fixture.fresh "acme/fraud-model" {[ "models/fraud" := Fixture.trained ]} in
  let s1 := snd (initialize_model Fixture.runtime s) in
  load_model Fixture.runtime s = (inr tt, s1)
  /\ fs (world s1) = fs (world s)
  /\ trace (world s1) = trace (world s) ++ [TFSMLayer_open (model_path (self s))]
  /\ count is_rmtree (trace (world s1)) = count is_rmtree (trace (world s))
  /\ count is_snapshot_download (trace (world s1))
     = count is_snapshot_download (trace (world s)).
Proof.
  exact (load_model_first_attempt_frame Fixture.runtime
           (Fixture.fresh "acme/fraud-model" {[ "models/fraud" := Fixture.trained ]})
           _ eq_refl).
Defined.

End LoaderSpec.


(** ** The settings *)

Module ConfigFacts.

Import PyFloat Config.

(** A source without an entry of the field's name gives the field no
    value. *)
Lemma source_lookup_absent (m : gmap string string) (field : string) :
  (forall k, lower k = lower field -> m !! k = None) ->
  source_lookup m field = None.
Proof.
  intros H. unfold source_lookup.
  destruct (find _ (map_to_list m)) as [[k v]|] eqn:E; [|reflexivity].
  apply find_some in E as [Hin Hp]. cbn in Hp.
  apply andb_true_iff in Hp as [Hk _]. apply String.eqb_eq in Hk.
  apply list_elem_of_In, elem_of_map_to_list in Hin.
  rewrite (H k Hk) in Hin. discriminate.
Qed.

(** A value a source gives comes from an entry of the field's name. *)
Lemma source_lookup_some (m : gmap string string) (field v : string) :
  source_lookup m field = Some v ->
  exists k, lower k = lower field /\ m !! k = Some v.
Proof.
  unfold source_lookup.
  destruct (find _ (map_to_list m)) as [[k v']|] eqn:E; [|discriminate].
  cbn. intros [= ->].
  apply find_some in E as [Hin Hp]. cbn in Hp.
  apply andb_true_iff in Hp as [Hk _]. apply String.eqb_eq in Hk.
  apply list_elem_of_In, elem_of_map_to_list in Hin.
  now exists k.
Qed.

Lemma from_sources_absent (env : Environment) (name : string) :
  absent env name -> from_sources env name = None.
Proof.
  intros H. unfold from_sources.
  rewrite (source_lookup_absent (environ env) name) by (intros k Hk; apply (H k Hk)).
  apply source_lookup_absent. intros k Hk. apply (H k Hk).
Qed.

Lemma getenv_absent (env : Environment) (name : string) :
  absent env name -> environ env !! name = None.
Proof. intros H. apply (H name eq_refl). Qed.

Lemma from_sources_provided (env : Environment) (name v : string) :
  from_sources env name = Some v -> provided env name v.
Proof.
  unfold from_sources.
  destruct (source_lookup (environ env) name) as [v'|] eqn:E1.
  - intros [= ->]. apply source_lookup_some in E1 as (k & Hk & Hv).
    exists k. auto.
  - intros E2. apply source_lookup_some in E2 as (k & Hk & Hv).
    exists k. auto.
Qed.

Lemma getenv_provided (env : Environment) (name v : string) :
  environ env !! name = Some v -> provided env name v.
Proof. intros H. exists name. auto. Qed.

(** The value of a [str] field is one a source holds. *)
Lemma str_field_provided (env : Environment) (name v : string) :
  str_field env name (environ env !! name) = inr v -> provided env name v.
Proof.
  unfold str_field.
  destruct (from_sources env name) as [v'|] eqn:E.
  - intros [= ->]. now apply from_sources_provided.
  - destruct (environ env !! name) as [v'|] eqn:E'; [|discriminate].
    intros [= ->]. now apply getenv_provided.
Qed.

Section Parsers.

Variable cv : Conversions.

(** A [str] field whose setting is absent does not validate. *)
Lemma str_field_absent (env : Environment) (name : string) :
  absent env name ->
  str_field env name (environ env !! name)
  = Py.raise Py.ValidationError "Input should be a valid string".
Proof.
  intros H. unfold str_field.
  now rewrite (from_sources_absent env name H), (getenv_absent env name H).
Qed.

(** Loading the settings with a setting absent raises. *)
Lemma ai_config_absent (env : Environment) (name : string) :
  In name settings ->
  absent env name ->
  exists e, ai_config cv env = inl e.
Proof.
  intros Hin Habs. unfold ai_config, class_body, float_getenv, int_getenv.
  pose proof (getenv_absent env name Habs) as Hget.
  pose proof (str_field_absent env name Habs) as Hstr. rewrite Hget in Hstr.
  cbn in Hin.
  destruct Hin as [<-|[<-|[<-|[<-|[<-|[]]]]]].
  - (* the local path *)
    destruct (environ env !! "FRAUD_THRESHOLD") as [t|]; [|cbn; eauto].
    destruct (py_float cv t) as [e|thr]; [cbn; eauto|]. cbn.
    destruct (environ env !! "PORT") as [p|]; [|cbn; eauto].
    destruct (py_int cv p) as [e|port]; [cbn; eauto|]. cbn.
    unfold instantiate. cbn. rewrite Hget, Hstr. cbn. eauto.
  - (* the repository *)
    destruct (environ env !! "FRAUD_THRESHOLD") as [t|]; [|cbn; eauto].
    destruct (py_float cv t) as [e|thr]; [cbn; eauto|]. cbn.
    destruct (environ env !! "PORT") as [p|]; [|cbn; eauto].
    destruct (py_int cv p) as [e|port]; [cbn; eauto|]. cbn.
    unfold instantiate. cbn. rewrite Hget, Hstr.
    destruct (str_field env "FRAUD_MODEL_LOCAL_PATH" _); cbn; eauto.
  - (* the threshold *)
    rewrite Hget. cbn. eauto.
  - (* the host *)
    destruct (environ env !! "FRAUD_THRESHOLD") as [t|]; [|cbn; eauto].
    destruct (py_float cv t) as [e|thr]; [cbn; eauto|]. cbn.
    destruct (environ env !! "PORT") as [p|]; [|cbn; eauto].
    destruct (py_int cv p) as [e|port]; [cbn; eauto|]. cbn.
    unfold instantiate. cbn. rewrite Hget, Hstr.
    destruct (str_field env "FRAUD_MODEL_LOCAL_PATH" _); cbn; eauto.
    destruct (str_field env "FRAUD_MODEL_REPO_ID" _); cbn; eauto.
    destruct (float_field _ env "FRAUD_THRESHOLD" _); cbn; eauto.
  - (* the port *)
    destruct (environ env !! "FRAUD_THRESHOLD") as [t|]; [|cbn; eauto].
    destruct (py_float cv t) as [e|thr]; [cbn; eauto|]. cbn.
    rewrite Hget. cbn. eauto.
Qed.

(** The settings that load hold no value of their own: each field is, or
    is converted from, a string that a source holds under its name. *)
Lemma ai_config_provided (env : Environment) (cfg : AIConfig) :
  ai_config cv env = inr cfg ->
  provided env "FRAUD_MODEL_LOCAL_PATH" (FRAUD_MODEL_LOCAL_PATH cfg)
  /\ provided env "FRAUD_MODEL_REPO_ID" (FRAUD_MODEL_REPO_ID cfg)
  /\ (exists v, provided env "FRAUD_THRESHOLD" v
                /\ (py_float cv v = inr (FRAUD_THRESHOLD cfg)
                    \/ pydantic_float cv v = inr (FRAUD_THRESHOLD cfg)))
  /\ provided env "HOST" (HOST cfg)
  /\ (exists v, provided env "PORT" v
                /\ (py_int cv v = inr (PORT cfg) \/ pydantic_int cv v = inr (PORT cfg))).
Proof.
  unfold ai_config, class_body, float_getenv, int_getenv.
  destruct (environ env !! "FRAUD_THRESHOLD") as [t|] eqn:Et; [|discriminate].
  destruct (py_float cv t) as [e|thr] eqn:Ept; [discriminate|]. cbn.
  destruct (environ env !! "PORT") as [p|] eqn:Ep; [|discriminate].
  destruct (py_int cv p) as [e|port] eqn:Epp; [discriminate|]. cbn.
  unfold instantiate. cbn.
  destruct (str_field env "FRAUD_MODEL_LOCAL_PATH" _) as [e|path] eqn:E1;
    [discriminate|]. cbn.
  destruct (str_field env "FRAUD_MODEL_REPO_ID" _) as [e|repo] eqn:E2;
    [discriminate|]. cbn.
  destruct (float_field _ env "FRAUD_THRESHOLD" thr) as [e|thr'] eqn:E3;
    [discriminate|]. cbn.
  destruct (str_field env "HOST" _) as [e|host] eqn:E4; [discriminate|]. cbn.
  destruct (int_field _ env "PORT" port) as [e|port'] eqn:E5; [discriminate|]. cbn.
  intros [= <-]. cbn.
  repeat split.
  - now apply str_field_provided.
  - now apply str_field_provided.
  - unfold float_field in E3.
    destruct (from_sources env "FRAUD_THRESHOLD") as [v|] eqn:Ev.
    + exists v. split; [now apply from_sources_provided | now right].
    + injection E3 as <-. exists t. split; [now apply getenv_provided | now left].
  - now apply str_field_provided.
  - unfold int_field in E5.
    destruct (from_sources env "PORT") as [v|] eqn:Ev.
    + exists v. split; [now apply from_sources_provided | now right].
    + injection E5 as <-. exists p. split; [now apply getenv_provided | now left].
Qed.

End Parsers.

End ConfigFacts.


(** ** The settings: the property of the specification *)

Module ConfigSpec.

Import PyFloat Config ConfigFacts.

(** The environment of the fixture has no entry named [HOST], in any
    case. *)
Lemma env_without_host_absent : absent Fixture.env_without_host "HOST".
Proof.
  intros k Hk. split; [|apply lookup_empty].
  unfold Fixture.env_without_host. cbn [environ].
  repeat (rewrite lookup_insert_ne;
          [|intros <-; vm_compute in Hk; discriminate]).
  apply lookup_empty.
Qed.

(** C9.  The settings fail fast.  If one of the five settings (model local
    path, repository id, decision threshold, bind host, bind port) is
    absent from the environment, loading the settings raises, and the
    process does not start: the start ends with that exception before
    anything touches the model path, the hub or the network.  No setting
    has a default of its own: settings that load hold, field by field, a
    string that the environment holds under the field's name, or the
    number converted from it. *)
Theorem ai_config_fails_fast {dir} (cv : Conversions)
    (rt : FraudModel.Collaborators dir)
    (env : Environment) (w : FraudModel.World dir) :
  (forall name, In name settings -> absent env name ->
     exists e, ai_config cv env = inl e /\ Main.startup cv rt env w = (inl e, w))
  /\ (forall cfg, ai_config cv env = inr cfg ->
        provided env "FRAUD_MODEL_LOCAL_PATH" (FRAUD_MODEL_LOCAL_PATH cfg)
        /\ provided env "FRAUD_MODEL_REPO_ID" (FRAUD_MODEL_REPO_ID cfg)
        /\ (exists v, provided env "FRAUD_THRESHOLD" v
                      /\ (py_float cv v = inr (FRAUD_THRESHOLD cfg)
                          \/ pydantic_float cv v = inr (FRAUD_THRESHOLD cfg)))
        /\ provided env "HOST" (HOST cfg)
        /\ (exists v, provided env "PORT" v
                      /\ (py_int cv v = inr (PORT cfg)
                          \/ pydantic_int cv v = inr (PORT cfg)))).
Proof.
  split.
  - intros name Hin Habs.
    destruct (ai_config_absent cv env name Hin Habs) as [e He].
    exists e. split; [exact He|]. unfold Main.startup. now rewrite He.
  - apply ai_config_provided.
Qed.

(** The start of a process whose environment lacks the bind host. *)
Lemma ai_config_fails_fast_witness :
  let w := {| FraudModel.fs := {[ "models/fraud" := Fixture.trained ]};
              FraudModel.trace := [] |} in
  exists e,
    ai_config Fixture.conversions Fixture.env_without_host = inl e
    /\ Main.startup Fixture.conversions Fixture.runtime Fixture.env_without_host w
       = (inl e, w).
Proof.
  exact (proj1 (ai_config_fails_fast Fixture.conversions Fixture.runtime
                  Fixture.env_without_host
                  {| FraudModel.fs := {[ "models/fraud" := Fixture.trained ]};
                     FraudModel.trace := [] |})
           "HOST" (or_intror (or_intror (or_intror (or_introl eq_refl))))
           env_without_host_absent).
Defined.

(** That start raises the validation error of the missing string; with the
    host set the settings load and the process starts. *)
Example ai_config_without_host :
  ai_config Fixture.conversions Fixture.env_without_host
  = Py.raise Py.ValidationError "Input should be a valid string".
Proof. vm_compute. reflexivity. Qed.

Example ai_config_complete :
  ai_config Fixture.conversions Fixture.env_complete = inr Fixture.cfg.
Proof. vm_compute. reflexivity. Qed.

End ConfigSpec.


(* ===================================================================== *)
(** * Further properties of the code *)
(* ===================================================================== *)

(** ** The loader, beyond the specification *)

Module LoaderMore.

Import FraudModel LoaderFacts.

Section Loader.

Context {dir : Type}.
Variable rt : Collaborators dir.

Implicit Types (s : State dir).


(** The instance attributes other than [model] after a run. *)
Lemma load_model_identity s :
  repo_id (self (snd (load_model rt s))) = repo_id (self s)
  /\ model_path (self (snd (load_model rt s))) = model_path (self s).
Proof.
  rewrite load_model_eq. unfold load_model_paths.
  destruct (found rt s) as [e1|l]; [|now cbn].
  destruct (wipe_error rt s) as [e0|].
  { cbn [snd]. now rewrite wiped_self. }
  destruct (hub rt (repo_id (self s)) allow_patterns) as [e2|d].
  - cbn [snd requested logged self]. now rewrite wiped_self.
  - destruct (load_saved_model rt d) as [e3|l]; cbn [snd with_model logged self];
      now rewrite refetched_self.
Qed.

(** What a run that returns leaves behind: a loadable artifact at the
    local path and the handle built from it. *)
Lemma load_model_returns_from_path s :
  fst (load_model rt s) = inr tt ->
  exists d l,
    fs (world (snd (load_model rt s))) !! model_path (self s) = Some d
    /\ load_saved_model rt d = inr l
    /\ model (self (snd (load_model rt s))) = Some (handle l).
Proof.
  rewrite load_model_eq. unfold load_model_paths, pending.
  destruct (found rt s) as [e1|l] eqn:Hf.
  - destruct (wipe_error rt s) as [e0|] eqn:Hw.
    { cbn. destruct (model (self s)); discriminate. }
    destruct (hub rt (repo_id (self s)) allow_patterns) as [e2|d] eqn:Hh.
    { cbn. destruct (model (self s)); discriminate. }
    destruct (load_saved_model rt d) as [e3|l] eqn:Hl.
    { cbn. destruct (model (self s)); discriminate. }
    intros _. exists d, l. repeat split; [|exact Hl].
    cbn. now rewrite lookup_insert_eq.
  - intros _. unfold found in Hf. cbn.
    destruct (fs (world s) !! model_path (self s)) as [d|]; [|discriminate].
    now exists d, l.
Qed.

(** Every exception of a run that started without a handle is the
    [RuntimeError] of the [finally] block. *)
Lemma load_model_masks s e :
  model (self s) = None ->
  fst (load_model rt s) = inl e ->
  e = Py.Raise Py.RuntimeError "Model failed to load.".
Proof.
  intros Hm. rewrite load_model_eq. unfold load_model_paths. rewrite Hm.
  destruct (found rt s) as [e1|l]; [|discriminate].
  destruct (wipe_error rt s) as [e0|]; [now intros [= <-]|].
  destruct (hub rt (repo_id (self s)) allow_patterns) as [e2|d];
    [now intros [= <-]|].
  destruct (load_saved_model rt d) as [e3|l]; [now intros [= <-]|discriminate].
Qed.

End Loader.

End LoaderMore.


Module LoaderExtra.

Import FraudModel LoaderFacts LoaderMore.


(** X2.  The calls of one run of [load_model].  The trace is extended, never
    rewritten; the run makes one or two construction attempts, at most one
    [rmtree] and at most one download; and every call names the instance's
    own model path, its own repository id and the allow-list of the
    source. *)
Theorem load_model_calls_bounded {dir} (rt : Collaborators dir) (s : State dir) :
  let p := model_path (self s) in
  exists calls,
    trace (world (snd (load_model rt s))) = trace (world s) ++ calls
    /\ (1 <= count is_TFSMLayer_open calls <= 2)%nat
    /\ (count is_rmtree calls <= 1)%nat
    /\ (count is_snapshot_download calls <= 1)%nat
    /\ Forall (fun ev => ev = TFSMLayer_open p
                         \/ ev = rmtree p
                         \/ ev = snapshot_download (repo_id (self s)) p
                                   ["saved_model.pb"; "variables/*"; "assets/*";
                                    "keras_metadata.pb"])
              calls.
Proof.
  cbv zeta. destruct (found rt s) as [e1|l] eqn:Hf.
  - exists ([TFSMLayer_open (model_path (self s))] ++ recovery_calls rt s).
    split; [apply (load_model_recovery_trace rt s e1 Hf)|].
    unfold recovery_calls.
    destruct (bool_decide (is_Some (fs (world s) !! model_path (self s))));
      destruct (wipe_error rt s);
      try destruct (Py.is_ok (hub rt (repo_id (self s)) allow_patterns));
      cbn; (repeat split; [lia .. |]);
      repeat (apply Forall_cons_2; [auto|]); apply Forall_nil_2.
  - exists [TFSMLayer_open (model_path (self s))].
    rewrite load_model_eq. unfold load_model_paths. rewrite Hf. cbn.
    repeat split; try lia. apply Forall_cons_2; [auto | apply Forall_nil_2].
Qed.

(** X3.  Loading twice.  When [load_model] has returned, a second
    [load_model] on the instance returns as well, by its first construction
    attempt alone: it deletes nothing, downloads nothing, and leaves the
    filesystem as the first run left it. *)
Theorem load_model_again {dir} (rt : Collaborators dir) (s : State dir) :
  fst (load_model rt s) = inr tt ->
  let s1 := snd (load_model rt s) in
  let s2 := snd (load_model rt s1) in
  fst (load_model rt s1) = inr tt
  /\ fs (world s2) = fs (world s1)
  /\ trace (world s2) = trace (world s1) ++ [TFSMLayer_open (model_path (self s))]
  /\ model (self s2) = model (self s1).
Proof.
  intros Hret. cbv zeta.
  destruct (load_model_returns_from_path rt s Hret) as (d & l & Hd & Hl & Hm).
  destruct (load_model_identity rt s) as [_ Hp].
  set (s1 := snd (load_model rt s)) in *.
  assert (Hf : found rt s1 = inr l).
  { unfold found. now rewrite Hp, Hd. }
  rewrite (load_model_eq rt s1). unfold load_model_paths. rewrite Hf, Hp. cbn.
  repeat split. now rewrite Hm.
Qed.

(** A first start over a missing path, then a second load. *)
Lemma load_model_again_witness :
  let s := Fixture.fresh "acme/fraud-model" ∅ in
  let s1 := snd (load_model Fixture.runtime s) in
  let s2 := snd (load_model Fixture.runtime s1) in
  fst (load_model Fixture.runtime s1) = inr tt
  /\ fs (world s2) = fs (world s1)
  /\ trace (world s2) = trace (world s1) ++ [TFSMLayer_open (model_path (self s))]
  /\ model (self s2) = model (self s1).
Proof.
  exact (load_model_again Fixture.runtime (Fixture.fresh "acme/fraud-model" ∅) eq_refl).
Defined.

(** X4.  Whatever makes the loading fail at construction time (a missing
    or corrupt artifact, an [rmtree] or a download that raises, a download
    that cannot be loaded either), the exception [__init__] raises is
    [RuntimeError("Model failed to load.")]: the [finally] block replaces
    the exception that was pending. *)
Theorem init_raises_only_RuntimeError {dir} (rt : Collaborators dir)
    (ai_config : AIConfig) (w : World dir) (e : Py.exn) :
  fst (__init__ rt ai_config w) = inl e ->
  e = Py.Raise Py.RuntimeError "Model failed to load.".
Proof.
  unfold __init__.
  set (s0 := {| self := _; world := w |}).
  pose proof (load_model_masks rt s0) as Hmask.
  destruct (load_model rt s0) as [[e'|[]] s1]; cbn; [|discriminate].
  intros [= <-]. now apply Hmask.
Qed.

(** A start over a regular file at the model path: [rmtree] raises
    [OSError], the constructor raises the [RuntimeError]. *)
Lemma init_raises_only_RuntimeError_witness :
  let w := {| fs := {[ "models/fraud" := Fixture.regular_file ]}; trace := [] |} in
  exists e,
    fst (__init__ Fixture.runtime Fixture.cfg w) = inl e
    /\ trace (snd (__init__ Fixture.runtime Fixture.cfg w))
       = [TFSMLayer_open "models/fraud"; rmtree "models/fraud"]
    /\ e = Py.Raise Py.RuntimeError "Model failed to load.".
Proof.
  cbv zeta. eexists. split; [reflexivity|]. split; [reflexivity|].
  apply (init_raises_only_RuntimeError Fixture.runtime Fixture.cfg
           {| fs := {[ "models/fraud" := Fixture.regular_file ]}; trace := [] |}).
  reflexivity.
Defined.

(** X5.  Reloading an instance that has a model handle.  If the run raises,
    the handle is the one the instance had, and the exception is the one
    of the step that failed ([rmtree], the download, or the construction
    from what was downloaded), not the [RuntimeError] of the [finally]
    block. *)
Theorem load_model_failed_reload {dir} (rt : Collaborators dir) (s : State dir)
    (m : Keras.Sequential) (e : Py.exn) :
  model (self s) = Some m ->
  fst (load_model rt s) = inl e ->
  let p := model_path (self s) in
  let repo := repo_id (self s) in
  model (self (snd (load_model rt s))) = Some m
  /\ (fs (world s) !! p ≫= rmtree_error rt = Some e
      \/ hub rt repo allow_patterns = inl e
      \/ exists d, hub rt repo allow_patterns = inr d
                   /\ load_saved_model rt d = inl e).
Proof.
  intros Hm. cbv zeta. rewrite load_model_eq. unfold load_model_paths. rewrite Hm.
  destruct (found rt s) as [e1|l]; [|discriminate].
  fold (wipe_error rt s).
  destruct (wipe_error rt s) as [e0|] eqn:Hw.
  { cbn. intros [= <-]. rewrite wiped_self. cbn. auto. }
  destruct (hub rt (repo_id (self s)) allow_patterns) as [e2|d] eqn:Hh.
  { cbn. intros [= <-]. rewrite wiped_self. cbn. auto. }
  destruct (load_saved_model rt d) as [e3|l] eqn:Hl; [|discriminate].
  cbn [fst snd pending logged self]. intros [= <-]. rewrite refetched_self.
  split; [exact Hm|]. right. right. now exists d.
Qed.

(** A served instance whose artifact was corrupted on disk and whose
    repository has gone: the reload raises the error of the hub and the
    instance keeps serving the old handle. *)
Lemma load_model_failed_reload_witness :
  let s := {| self := {| repo_id := "nobody/none"; model_path := "models/fraud";
                         model := Some Fixture.sequential |};
              world := {| fs := {[ "models/fraud" := Fixture.corrupt ]};
                          trace := [] |} |} in
  let e := Py.Raise Py.OSError "404 Client Error: Repository Not Found" in
  model (self (snd (load_model Fixture.runtime s))) = Some Fixture.sequential
  /\ (fs (world s) !! "models/fraud" ≫= rmtree_error Fixture.runtime = Some e
      \/ hub Fixture.runtime "nobody/none" allow_patterns = inl e
      \/ exists d, hub Fixture.runtime "nobody/none" allow_patterns = inr d
                   /\ load_saved_model Fixture.runtime d = inl e).
Proof.
  exact (load_model_failed_reload Fixture.runtime
           {| self := {| repo_id := "nobody/none"; model_path := "models/fraud";
                         model := Some Fixture.sequential |};
              world := {| fs := {[ "models/fraud" := Fixture.corrupt ]};
                          trace := [] |} |}
           Fixture.sequential
           (Py.Raise Py.OSError "404 Client Error: Repository Not Found")
           eq_refl eq_refl).
Defined.

(** X7.  A refetch never writes into a directory that still holds files:
    the download of [_download_model] always lands on an absent path, so
    what [load_model] does is the same however a download would merge with
    existing content. *)
Theorem load_model_never_merges {dir} (rt : Collaborators dir)
    (merge : dir -> dir -> dir) (s : State dir) :
  load_model {| load_saved_model := load_saved_model rt;
                hub := hub rt;
                overwrite := merge;
                rmtree_error := rmtree_error rt |} s
  = load_model rt s.
Proof. rewrite !load_model_eq. reflexivity. Qed.

End LoaderExtra.


(** ** Process start, beyond the specification *)

Module MainExtra.

Import FraudModel LoaderFacts LoaderMore.

(** X6.  What a started process holds.  The settings are those the
    environment loads; the instance carries their repository id and model
    path; the address bound is their host and port; and the model handle
    is the saved model that is at the local path once the start is over,
    behind a declared input of thirty features. *)
Theorem startup_serves_model_at_path {dir} (cv : Config.Conversions)
    (rt : Collaborators dir) (env : Config.Environment) (w w' : World dir)
    (srv : Main.Server) :
  Main.startup cv rt env w = (inr srv, w') ->
  let cfg := Main.server_config srv in
  Config.ai_config cv env = inr cfg
  /\ repo_id (Main.fraud_model srv) = FRAUD_MODEL_REPO_ID cfg
  /\ model_path (Main.fraud_model srv) = FRAUD_MODEL_LOCAL_PATH cfg
  /\ Main.bind_host srv = HOST cfg
  /\ Main.bind_port srv = PORT cfg
  /\ exists d l,
       fs w' !! FRAUD_MODEL_LOCAL_PATH cfg = Some d
       /\ load_saved_model rt d = inr l
       /\ model (Main.fraud_model srv)
          = Some {| Keras.input_shape := 30; Keras.layer := l |}.
Proof.
  unfold Main.startup.
  destruct (Config.ai_config cv env) as [e|cfg]; [discriminate|].
  unfold __init__.
  set (s0 := {| self := {| repo_id := FRAUD_MODEL_REPO_ID cfg;
                           model_path := FRAUD_MODEL_LOCAL_PATH cfg;
                           model := None |};
                world := w |}).
  destruct (load_model_identity rt s0) as [Hr Hp].
  pose proof (load_model_returns_from_path rt s0) as Hfrom.
  destruct (load_model rt s0) as [[e|[]] s1]; [discriminate|].
  intros [= <- <-]. cbn in *.
  destruct (Hfrom eq_refl) as (d & l & Hd & Hl & Hm).
  repeat split; try assumption. now exists d, l.
Qed.

(** A start over a missing local path and a complete environment: the
    artifact is fetched, and the process serves it. *)
Definition started : Main.Server :=
  {| Main.server_config := Fixture.cfg;
     Main.fraud_model := self Fixture.serving;
     Main.bind_host := "0.0.0.0";
     Main.bind_port := 6060 |}.

Definition after_start : World Fixture.artifact :=
  {| fs := {[ "models/fraud" := Fixture.trained ]};
     trace := [TFSMLayer_open "models/fraud";
               snapshot_download "acme/fraud-model" "models/fraud" allow_patterns;
               TFSMLayer_open "models/fraud"] |}.

Lemma startup_serves_model_at_path_witness :
  Config.ai_config Fixture.conversions Fixture.env_complete = inr Fixture.cfg
  /\ repo_id (Main.fraud_model started) = "acme/fraud-model"
  /\ model_path (Main.fraud_model started) = "models/fraud"
  /\ Main.bind_host started = "0.0.0.0"
  /\ Main.bind_port started = 6060
  /\ exists d l,
       fs after_start !! "models/fraud" = Some d
       /\ load_saved_model Fixture.runtime d = inr l
       /\ model (Main.fraud_model started)
          = Some {| Keras.input_shape := 30; Keras.layer := l |}.
Proof.
  exact (startup_serves_model_at_path Fixture.conversions Fixture.runtime
           Fixture.env_complete {| fs := ∅; trace := [] |} after_start started
           eq_refl).
Defined.

End MainExtra.


(** ** The inference wrapper, beyond the specification *)

Module PredictMore.

Import PyFloat FraudModel PredictFacts.

(** Raising the threshold never turns a 0 into a 1. *)
Lemma label_antitone (t1 t2 p : float) :
  lt t1 t2 = true -> label t2 p <= label t1 p.
Proof.
  intros H. unfold label, gt, lt in *.
  destruct (SFltb t2 p) eqn:H2.
  - now rewrite (PyFloatFacts.SFltb_trans t1 t2 p H H2).
  - destruct (SFltb t1 p); lia.
Qed.

(** NaN compares greater than nothing, and nothing compares greater than
    NaN. *)
Lemma label_nan_probability (t : float) : label t S754_nan = 0.
Proof. unfold label, gt, SFltb. now destruct t. Qed.

Lemma label_nan_threshold (p : float) : label S754_nan p = 0.
Proof. reflexivity. Qed.

(** A [predict] that returns went through every step. *)
Lemma predict_returns_inv {dir} ai_config x (s : State dir) (labels : list Z) :
  fst (predict ai_config x s) = inr labels ->
  exists m out list_prob rest,
    model (self s) = Some m
    /\ Keras.predict m x = inr out
    /\ out !! "dense_7" = Some (list_prob :: rest)
    /\ labels = map (label (FRAUD_THRESHOLD ai_config)) list_prob.
Proof.
  destruct (model (self s)) as [m|] eqn:Hm.
  - destruct (Keras.predict m x) as [e|out] eqn:Hout.
    + now rewrite (predict_runtime_error _ _ _ _ _ Hm Hout).
    + destruct (out !! "dense_7") as [[|row0 rest]|] eqn:Hd.
      * now rewrite (predict_no_rows _ _ _ _ _ Hm Hout Hd).
      * rewrite (predict_ok _ _ _ _ _ _ _ Hm Hout Hd). cbn. intros [= <-].
        now exists m, out, row0, rest.
      * now rewrite (predict_no_output _ _ _ _ _ Hm Hout Hd).
  - now rewrite (predict_unloaded _ _ _ Hm).
Qed.

End PredictMore.


Module PredictExtra.

Import PyFloat FraudModel PredictFacts PredictMore.

(** X8.  What a returned [predict] tells.  The instance had a model handle,
    the forward pass returned, its output has the name [dense_7] and at
    least one row; there are as many labels as that first output row has
    entries, whatever the number of input rows; and every label is 0 or 1,
    whatever numbers the model emitted (beyond [0, 1], infinite, NaN). *)
Theorem predict_returns_binary_labels {dir} (ai_config : AIConfig)
    (x : Np.ndarray) (s : State dir) (labels : list Z) :
  fst (predict ai_config x s) = inr labels ->
  Forall (fun l => l = 0 \/ l = 1) labels
  /\ exists m out list_prob rest,
       model (self s) = Some m
       /\ Keras.predict m x = inr out
       /\ out !! "dense_7" = Some (list_prob :: rest)
       /\ length labels = length list_prob.
Proof.
  intros H. split; [exact (predict_labels_binary ai_config x s labels H)|].
  destruct (predict_returns_inv ai_config x s labels H)
    as (m & out & list_prob & rest & Hm & Hout & Hd & ->).
  exists m, out, list_prob, rest. repeat split; try assumption.
  apply length_map.
Qed.

(** One served row. *)
Lemma predict_returns_binary_labels_witness :
  Forall (fun l => l = 0 \/ l = 1) [1]
  /\ exists m out list_prob rest,
       model (self Fixture.serving) = Some m
       /\ Keras.predict m
            (Np.NdArray [1%nat; 30%nat] [Fixture.row Fixture.three_quarters])
          = inr out
       /\ out !! "dense_7" = Some (list_prob :: rest)
       /\ length [1] = length list_prob.
Proof.
  exact (predict_returns_binary_labels Fixture.cfg
           (Np.NdArray [1%nat; 30%nat] [Fixture.row Fixture.three_quarters])
           Fixture.serving [1] eq_refl).
Defined.

(** X9.  NaN never flags.  With a NaN threshold (which [float("nan")]
    gives) every label [predict] returns is 0; and a NaN among the
    probabilities is labelled 0 under every threshold. *)
Theorem predict_nan {dir} (ai_config : AIConfig) (x : Np.ndarray) (s : State dir)
    (m : Keras.Sequential) (out : gmap string Keras.tensor)
    (list_prob : list float) (rest : Keras.tensor) (labels : list Z) :
  model (self s) = Some m ->
  Keras.predict m x = inr out ->
  out !! "dense_7" = Some (list_prob :: rest) ->
  fst (predict ai_config x s) = inr labels ->
  (FRAUD_THRESHOLD ai_config = S754_nan -> Forall (fun l => l = 0) labels)
  /\ (forall i, list_prob !! i = Some S754_nan -> labels !! i = Some 0).
Proof.
  intros Hm Hout Hd. rewrite (predict_ok ai_config x s m out list_prob rest Hm Hout Hd).
  cbn. intros [= <-]. split.
  - intros ->. apply Forall_forall. intros l Hl.
    apply list_elem_of_fmap in Hl as (p & -> & _). apply label_nan_threshold.
  - intros i Hi.
    exact (eq_trans
             (list_lookup_fmap (label (FRAUD_THRESHOLD ai_config)) list_prob i)
             (eq_trans
                (f_equal (fmap (label (FRAUD_THRESHOLD ai_config))) Hi)
                (f_equal Some (label_nan_probability (FRAUD_THRESHOLD ai_config))))).
Qed.

(** A NaN threshold against a row scored three quarters, which one half
    would flag. *)
Lemma predict_nan_witness :
  let nan_cfg := {| FRAUD_MODEL_LOCAL_PATH := "models/fraud";
                    FRAUD_MODEL_REPO_ID := "acme/fraud-model";
                    FRAUD_THRESHOLD := S754_nan;
                    HOST := "0.0.0.0"; PORT := 6060 |} in
  (FRAUD_THRESHOLD nan_cfg = S754_nan -> Forall (fun l => l = 0) [0])
  /\ (forall i, [Fixture.three_quarters] !! i = Some S754_nan -> [0] !! i = Some 0).
Proof.
  exact (predict_nan
           {| FRAUD_MODEL_LOCAL_PATH := "models/fraud";
              FRAUD_MODEL_REPO_ID := "acme/fraud-model";
              FRAUD_THRESHOLD := S754_nan;
              HOST := "0.0.0.0"; PORT := 6060 |}
           (Np.NdArray [1%nat; 30%nat] [Fixture.row Fixture.three_quarters])
           Fixture.serving Fixture.sequential
           {[ "dense_7" := [[Fixture.three_quarters]] ]} [Fixture.three_quarters] [] [0]
           eq_refl eq_refl eq_refl eq_refl).
Defined.

(** X10.  The decision is antitone in the threshold.  The same batch is
    predicted by the same instance under two settings; if the threshold of
    the first is below the threshold of the second, then position by
    position the labels under the second are at most the labels under the
    first: raising the threshold never adds a fraud label. *)
Theorem predict_antitone_threshold {dir} (cfg1 cfg2 : AIConfig) (x : Np.ndarray)
    (s : State dir) (labels1 labels2 : list Z) :
  lt (FRAUD_THRESHOLD cfg1) (FRAUD_THRESHOLD cfg2) = true ->
  fst (predict cfg1 x s) = inr labels1 ->
  fst (predict cfg2 x s) = inr labels2 ->
  Forall2 Z.le labels2 labels1.
Proof.
  intros Hlt H1 H2.
  destruct (predict_returns_inv cfg1 x s labels1 H1)
    as (m & out & ps & rest & Hm & Hout & Hd & ->).
  destruct (predict_returns_inv cfg2 x s labels2 H2)
    as (m' & out' & ps' & rest' & Hm' & Hout' & Hd' & ->).
  assert (m' = m) by congruence. subst m'.
  assert (out' = out) by congruence. subst out'.
  assert (ps' = ps) by congruence. subst ps'.
  apply Forall2_fmap, Forall_Forall2_diag, Forall_forall.
  intros p _. now apply label_antitone.
Qed.

(** The threshold one quarter against the threshold one half, on a row
    scored one half. *)
Lemma predict_antitone_threshold_witness :
  Forall2 Z.le [0] [1].
Proof.
  exact (predict_antitone_threshold
           {| FRAUD_MODEL_LOCAL_PATH := "models/fraud";
              FRAUD_MODEL_REPO_ID := "acme/fraud-model";
              FRAUD_THRESHOLD := Fixture.quarter;
              HOST := "0.0.0.0"; PORT := 6060 |}
           Fixture.cfg
           (Np.NdArray [1%nat; 30%nat] [Fixture.row Fixture.half])
           Fixture.serving [1] [0] eq_refl eq_refl eq_refl).
Defined.

End PredictExtra.


(** ** The endpoint, beyond the specification *)

Module EndpointMore.

Import PyFloat FraudModel Api PredictFacts PredictMore EndpointFacts.

(** [Np.uniform] looks at the lengths of the rows only. *)
Lemma uniform_lengths (n : nat) (xss : list (list float)) :
  Np.uniform n xss = forallb (fun k => Nat.eqb k n) (map (@length float) xss).
Proof.
  unfold Np.uniform. induction xss as [|xs xss IH]; [reflexivity|].
  cbn. now rewrite IH.
Qed.


(** Rounding the features keeps the lengths of the rows. *)
Lemma float32_lengths (xss : list (list float)) :
  map (@length float) (map (map float32) xss) = map (@length float) xss.
Proof.
  induction xss as [|xs xss IH]; [reflexivity|].
  cbn. now rewrite length_map, IH.
Qed.

(** The array the handler passes on, [np.array(features).astype("float32")]. *)
Definition input_data (features : list (list float)) : Py.result Np.ndarray :=
  (a <- Np.array features ;; Py.ok (Np.astype_float32 a))%py.

(** It is determined by the rounded features. *)
Lemma input_data_float32 (f1 f2 : list (list float)) :
  map (map float32) f1 = map (map float32) f2 ->
  input_data f1 = input_data f2.
Proof.
  intros H.
  assert (Hlen : map (@length float) f1 = map (@length float) f2).
  { rewrite <- (float32_lengths f1), <- (float32_lengths f2). now rewrite H. }
  unfold input_data, Np.array.
  destruct f1 as [|r1 t1], f2 as [|r2 t2]; try discriminate; [reflexivity|].
  rewrite !uniform_lengths, Hlen.
  assert (Hr : length r1 = length r2) by now injection Hlen.
  assert (Hn : length (r1 :: t1) = length (r2 :: t2)).
  { rewrite <- (length_map (@length float) (r1 :: t1)), Hlen. apply length_map. }
  rewrite Hr.
  destruct (forallb _ _); [|reflexivity].
  cbn [Py.bind Py.ok]. unfold Np.astype_float32. cbn [Np.shape Np.rows].
  now rewrite Hn, H.
Qed.

Lemma detect_try_input_data {dir} ai_config request (s : State dir) :
  detect_try ai_config request s
  = match input_data (features request) with
    | inl e => (inl e, s)
    | inr a =>
        match predict ai_config a s with
        | (inl e, s') => (inl e, s')
        | (inr labels, s') => (inr {| result := labels |}, s')
        end
    end.
Proof.
  unfold input_data.
  destruct (Np.array (features request)) as [e|a] eqn:Ha.
  - now rewrite (detect_try_array_error _ _ _ _ Ha).
  - now rewrite (detect_try_predict _ _ _ _ Ha).
Qed.


End EndpointMore.


Module EndpointExtra.

Import PyFloat FraudModel Api PredictFacts PredictMore EndpointFacts EndpointMore.


(** X12.  The handler sees its input through [astype("float32")]: two
    requests whose features agree once rounded to float32 get the same
    answer from the same process. *)
Theorem detect_fraud_float32 {dir} (ai_config : AIConfig)
    (r1 r2 : FraudDetectionRequest) (s : State dir) :
  map (map float32) (features r1) = map (map float32) (features r2) ->
  detect_fraud ai_config r1 s = detect_fraud ai_config r2 s.
Proof.
  intros H. unfold detect_fraud. rewrite !detect_try_input_data.
  now rewrite (input_data_float32 (features r1) (features r2) H).
Qed.

(** A number just above one half that float32 cannot tell from one half. *)
Definition just_above_half : float := binary64 (2 ^ 39 + 1) (-40).

(** As Python floats the two differ, and one half does not exceed the
    threshold one half while the other does; the endpoint answers both
    alike, with the label of one half. *)
Example just_above_half_differs :
  gt just_above_half Fixture.half = true
  /\ gt Fixture.half Fixture.half = false
  /\ fst (detect_fraud Fixture.cfg
            {| features := [Fixture.row just_above_half] |} Fixture.serving)
     = Response200 {| result := [0] |}.
Proof. repeat split; vm_compute; reflexivity. Qed.

Lemma detect_fraud_float32_witness :
  detect_fraud Fixture.cfg {| features := [Fixture.row just_above_half] |}
    Fixture.serving
  = detect_fraud Fixture.cfg {| features := [Fixture.row Fixture.half] |}
      Fixture.serving.
Proof.
  apply (detect_fraud_float32 Fixture.cfg
           {| features := [Fixture.row just_above_half] |}
           {| features := [Fixture.row Fixture.half] |} Fixture.serving).
  vm_compute. reflexivity.
Defined.

End EndpointExtra.


(** ** The settings, beyond the specification *)

Module ConfigMore.

Import PyFloat Config ConfigFacts.

(** The entries of a source for a setting are spelled as the field is. *)
Definition spelled_exactly (m : gmap string string) (name : string) : Prop :=
  forall k, lower k = lower name -> is_Some (m !! k) -> k = name.

(** A source whose only entry for a field is spelled exactly and is not
    empty gives the field that entry. *)
Lemma source_lookup_exact (m : gmap string string) (name v : string) :
  spelled_exactly m name ->
  m !! name = Some v ->
  v <> "" ->
  source_lookup m name = Some v.
Proof.
  intros Hex Hv Hne. unfold source_lookup.
  destruct (find _ (map_to_list m)) as [[k v']|] eqn:E.
  - apply find_some in E as [Hin Hp]. cbn in Hp.
    apply andb_true_iff in Hp as [Hk _]. apply String.eqb_eq in Hk.
    apply list_elem_of_In, elem_of_map_to_list in Hin.
    assert (k = name) by (apply Hex; [exact Hk | eauto]). subst k.
    cbn. congruence.
  - exfalso.
    assert (Hin : In (name, v) (map_to_list m)).
    { apply list_elem_of_In, elem_of_map_to_list. exact Hv. }
    pose proof (find_none _ _ E _ Hin) as Hf. cbn in Hf.
    rewrite String.eqb_refl in Hf. cbn in Hf.
    apply negb_false_iff, String.eqb_eq in Hf. contradiction.
Qed.

Lemma from_sources_environ (env : Environment) (name v : string) :
  spelled_exactly (environ env) name ->
  environ env !! name = Some v ->
  v <> "" ->
  from_sources env name = Some v.
Proof.
  intros Hex Hv Hne. unfold from_sources.
  now rewrite (source_lookup_exact (environ env) name v Hex Hv Hne).
Qed.

End ConfigMore.


Module ConfigExtra.

Import PyFloat Config ConfigFacts ConfigMore.

(** X13.  The numeric settings are read from the process environment while
    the class is being defined, before the settings class looks at any
    source: without [FRAUD_THRESHOLD] in [os.environ] the import raises
    the [TypeError] of [float(None)], and with it but without [PORT] the
    [TypeError] of [int(None)], whatever the file [../.env] holds; a
    string that [float] or [int] refuses raises their exception. *)
Theorem ai_config_numeric_settings (cv : Conversions) (env : Environment) :
  (environ env !! "FRAUD_THRESHOLD" = None ->
   ai_config cv env
   = Py.raise Py.TypeError
       "float() argument must be a string or a real number, not 'NoneType'")
  /\ (forall t e, environ env !! "FRAUD_THRESHOLD" = Some t ->
        py_float cv t = inl e -> ai_config cv env = inl e)
  /\ (forall t thr, environ env !! "FRAUD_THRESHOLD" = Some t ->
        py_float cv t = inr thr ->
        environ env !! "PORT" = None ->
        ai_config cv env
        = Py.raise Py.TypeError
            "int() argument must be a string, a bytes-like object or a real number, not 'NoneType'")
  /\ (forall t thr p e, environ env !! "FRAUD_THRESHOLD" = Some t ->
        py_float cv t = inr thr ->
        environ env !! "PORT" = Some p ->
        py_int cv p = inl e -> ai_config cv env = inl e).
Proof.
  unfold ai_config, class_body, float_getenv, int_getenv.
  repeat split.
  - now intros ->.
  - intros t e -> H. now rewrite H.
  - intros t thr -> H ->. now rewrite H.
  - intros t thr p e -> H -> Hp. rewrite H. cbn. now rewrite Hp.
Qed.

(** A process whose [../.env] holds every setting and whose environment
    holds none. *)
Lemma ai_config_numeric_settings_witness :
  ai_config Fixture.conversions
    {| environ := ∅; env_file := environ Fixture.env_complete |}
  = Py.raise Py.TypeError
      "float() argument must be a string or a real number, not 'NoneType'".
Proof.
  exact (proj1 (ai_config_numeric_settings Fixture.conversions
                  {| environ := ∅; env_file := environ Fixture.env_complete |})
           eq_refl).
Defined.

(** X14.  A complete environment loads, and it goes before the file.  If
    [os.environ] holds all five settings, spelled as the fields are and
    not empty, and the numeric ones convert, then the settings load with
    exactly these values (the numbers as pydantic converts them),
    whatever the file [../.env] holds. *)
Theorem ai_config_complete_environment (cv : Conversions) (env : Environment)
    (path repo t host p : string) (thr0 thr : float) (port0 port : Z) :
  Forall (spelled_exactly (environ env)) settings ->
  environ env !! "FRAUD_MODEL_LOCAL_PATH" = Some path -> path <> "" ->
  environ env !! "FRAUD_MODEL_REPO_ID" = Some repo -> repo <> "" ->
  environ env !! "FRAUD_THRESHOLD" = Some t -> t <> "" ->
  environ env !! "HOST" = Some host -> host <> "" ->
  environ env !! "PORT" = Some p -> p <> "" ->
  py_float cv t = inr thr0 -> pydantic_float cv t = inr thr ->
  py_int cv p = inr port0 -> pydantic_int cv p = inr port ->
  ai_config cv env
  = inr {| FRAUD_MODEL_LOCAL_PATH := path;
           FRAUD_MODEL_REPO_ID := repo;
           FRAUD_THRESHOLD := thr;
           HOST := host;
           PORT := port |}.
Proof.
  intros Hex Hpath Np Hrepo Nr Ht Nt Hhost Nh Hp Npp Hf0 Hf Hi0 Hi.
  unfold settings in Hex. rewrite !Forall_cons in Hex.
  destruct Hex as (E1 & E2 & E3 & E4 & E5 & _).
  unfold ai_config, class_body, float_getenv, int_getenv.
  rewrite Ht, Hf0. cbn. rewrite Hp, Hi0. cbn.
  unfold instantiate, str_field, float_field, int_field. cbn.
  rewrite (from_sources_environ env _ path E1 Hpath Np). cbn.
  rewrite (from_sources_environ env _ repo E2 Hrepo Nr). cbn.
  rewrite (from_sources_environ env _ t E3 Ht Nt), Hf. cbn.
  rewrite (from_sources_environ env _ host E4 Hhost Nh). cbn.
  rewrite (from_sources_environ env _ p E5 Hp Npp), Hi. reflexivity.
Qed.

(** The environment of the fixture spells its settings as the fields. *)
Lemma env_complete_spelled_exactly :
  Forall (spelled_exactly (environ Fixture.env_complete)) settings.
Proof.
  unfold settings. repeat (apply Forall_cons_2; [|]); [..|apply Forall_nil_2];
    intros k Hk [v Hv]; unfold Fixture.env_complete, Fixture.env_without_host in Hv;
    cbn [environ] in Hv;
    repeat (apply lookup_insert_Some in Hv as [[<- _]|[_ Hv]];
            [first [reflexivity | vm_compute in Hk; discriminate]|]);
    rewrite lookup_empty in Hv; discriminate.
Qed.

(** The complete environment of the fixture, over a file that says
    otherwise. *)
Lemma ai_config_complete_environment_witness :
  ai_config Fixture.conversions
    {| environ := environ Fixture.env_complete;
       env_file := {[ "HOST" := "127.0.0.1" ]} |}
  = inr Fixture.cfg.
Proof.
  apply (ai_config_complete_environment Fixture.conversions
           {| environ := environ Fixture.env_complete;
              env_file := {[ "HOST" := "127.0.0.1" ]} |}
           "models/fraud" "acme/fraud-model" "0.5" "0.0.0.0" "6060"
           Fixture.half Fixture.half 6060 6060);
    first [exact env_complete_spelled_exactly | reflexivity | discriminate].
Defined.

End ConfigExtra.


(* ===================================================================== *)
(** * [tests/test_api.py]: the scoring client *)
(* ===================================================================== *)

Module TestApi.

Import PyFloat.

(** One entry of the test data, as [load_test_data] builds it. *)
Record test_case : Type := {
  features : list (list float);
  expected_class : Z
}.

(** What the client can see raised: a [requests.exceptions.RequestException],
    which the loop catches, or an exception of another class, which it
    does not. *)
Inductive exc : Type :=
| RequestException (msg : string)
| Raised (class_name : string) (msg : string).

Definition str (e : exc) : string :=
  match e with
  | RequestException msg => msg
  | Raised _ msg => msg
  end.

(** An HTTP response as the loop reads it: the status, the text of the
    body, and what [response.json()] gives: an exception when the body is
    not JSON, else the value under ["result"], if there is one.  The
    values are lists of integers, as the endpoint sends them. *)
Record response : Type := {
  status_code : Z;
  text : string;
  json : exc + option (list Z)
}.

(** [requests.post(url, json=payload, timeout=10)] for the request number
    [idx]: a response, or an exception (no connection, a timeout). *)
Definition transport : Type := nat -> list (list float) -> exc + response.

(** The counters of the loop, lines 46-56. *)
Record counters : Type := {
  successful : Z;
  failed : Z;
  correct_predictions : Z;
  true_positives : Z;
  true_negatives : Z;
  false_positives : Z;
  false_negatives : Z;
  errors : list string
}.

Definition start : counters :=
  {| successful := 0; failed := 0; correct_predictions := 0;
     true_positives := 0; true_negatives := 0;
     false_positives := 0; false_negatives := 0; errors := [] |}.

(** [failed += 1; errors.append(message)]. *)
Definition fail (c : counters) (message : string) : counters :=
  {| successful := successful c;
     failed := failed c + 1;
     correct_predictions := correct_predictions c;
     true_positives := true_positives c;
     true_negatives := true_negatives c;
     false_positives := false_positives c;
     false_negatives := false_negatives c;
     errors := errors c ++ [message] |}.

(** [successful += 1]. *)
Definition succeed (c : counters) : counters :=
  {| successful := successful c + 1;
     failed := failed c;
     correct_predictions := correct_predictions c;
     true_positives := true_positives c;
     true_negatives := true_negatives c;
     false_positives := false_positives c;
     false_negatives := false_negatives c;
     errors := errors c |}.

(** Lines 75-86: the prediction against the expected class. *)
Definition score (c : counters) (predicted expected : Z) : counters :=
  let correct :=
    if predicted =? expected then correct_predictions c + 1
    else correct_predictions c in
  let cell (p e : Z) := ((predicted =? p) && (expected =? e))%bool in
  {| successful := successful c;
     failed := failed c;
     correct_predictions := correct;
     true_positives := if cell 1 1 then true_positives c + 1 else true_positives c;
     true_negatives :=
       if cell 1 1 then true_negatives c
       else if cell 0 0 then true_negatives c + 1 else true_negatives c;
     false_positives :=
       if cell 1 1 then false_positives c
       else if cell 0 0 then false_positives c
       else if cell 1 0 then false_positives c + 1 else false_positives c;
     false_negatives :=
       if cell 1 1 then false_negatives c
       else if cell 0 0 then false_negatives c
       else if cell 1 0 then false_negatives c
       else if cell 0 1 then false_negatives c + 1 else false_negatives c;
     errors := errors c |}.

(** The outcome of one turn of the loop: the new counters, or an exception
    that leaves the loop. *)
Definition turn (post : transport) (idx : nat) (tc : test_case) (c : counters)
  : exc + counters :=
  match post idx (features tc) with
  | inl (RequestException msg) =>
      inr (fail c ("Test " +:+ pretty idx +:+ ": " +:+ msg))
  | inl e => inl e
  | inr r =>
      if status_code r =? 200 then
        let c1 := succeed c in
        match json r with
        | inl (RequestException msg) =>
            inr (fail c1 ("Test " +:+ pretty idx +:+ ": " +:+ msg))
        | inl e => inl e
        | inr None => inl (Raised "KeyError" "'result'")
        | inr (Some []) => inl (Raised "IndexError" "list index out of range")
        | inr (Some (predicted_class :: _)) =>
            inr (score c1 predicted_class (expected_class tc))
        end
      else
        inr (fail c ("Test " +:+ pretty idx +:+ ": HTTP "
                     +:+ pretty (status_code r) +:+ " - " +:+ text r))
  end.

(** [for idx, test_case in enumerate(test_data, 1)], lines 62-104, from the
    index [idx] on. *)
Fixpoint loop (post : transport) (idx : nat) (test_data : list test_case)
    (c : counters) : exc + counters :=
  match test_data with
  | [] => inr c
  | tc :: rest =>
      match turn post idx tc c with
      | inl e => inl e
      | inr c' => loop post (S idx) rest c'
      end
  end.

(** *** The metrics, lines 106-110 *)

(** A Python number: an [int] or a [float]. *)
Inductive number : Type := Int (z : Z) | Float (f : float).

Definition float_of_int (z : Z) : float := binary_normalize 53 1024 z 0 false.

Definition to_float (n : number) : float :=
  match n with
  | Int z => float_of_int z
  | Float f => f
  end.

Definition is_zero (n : number) : bool :=
  match n with
  | Int z => z =? 0
  | Float (S754_zero _) => true
  | Float _ => false
  end.

(** [a / b]: the quotient as a float, of integers too (for integers below
    [2^53] the true division of Python is the division of the floats);
    division by zero raises. *)
Definition truediv (a b : number) : exc + number :=
  if is_zero b then inl (Raised "ZeroDivisionError" "division by zero")
  else inr (Float (SFdiv 53 1024 (to_float a) (to_float b))).

(** [a * b] and [a + b]: on integers the integer, else the float. *)
Definition mul (a b : number) : number :=
  match a, b with
  | Int x, Int y => Int (x * y)
  | _, _ => Float (SFmul 53 1024 (to_float a) (to_float b))
  end.

Definition add (a b : number) : number :=
  match a, b with
  | Int x, Int y => Int (x + y)
  | _, _ => Float (SFadd 53 1024 (to_float a) (to_float b))
  end.

(** [a > 0]. *)
Definition positive (a : number) : bool :=
  match a with
  | Int z => 0 <? z
  | Float f => SFltb (S754_zero false) f
  end.

(** [(n / d * 100) if d > 0 else 0]. *)
Definition percentage (n d : Z) : exc + number :=
  if 0 <? d then
    match truediv (Int n) (Int d) with
    | inl e => inl e
    | inr q => inr (mul q (Int 100))
    end
  else inr (Int 0).

(** [(2 * precision * recall / (precision + recall))
     if (precision + recall) > 0 else 0]. *)
Definition f1 (precision recall : number) : exc + number :=
  if positive (add precision recall)
  then truediv (mul (mul (Int 2) precision) recall) (add precision recall)
  else inr (Int 0).

(** The dictionary [test_api] returns, lines 112-126. *)
Record results : Type := {
  total : Z;
  tally : counters;
  accuracy : number;
  precision : number;
  recall : number;
  f1_score : number
}.

(** Lines 106-128, on the counters the loop ended with. *)
Definition summary (n : Z) (c : counters) : exc + results :=
  match percentage (correct_predictions c) n with
  | inl e => inl e
  | inr acc =>
      match percentage (true_positives c) (true_positives c + false_positives c) with
      | inl e => inl e
      | inr prec =>
          match percentage (true_positives c)
                  (true_positives c + false_negatives c) with
          | inl e => inl e
          | inr rec =>
              match f1 prec rec with
              | inl e => inl e
              | inr f => inr {| total := n; tally := c; accuracy := acc;
                                precision := prec; recall := rec; f1_score := f |}
              end
          end
      end
  end.

(** [test_api], lines 42-128, without its printing. *)
Definition test_api (post : transport) (test_data : list test_case)
  : exc + results :=
  match loop post 1 test_data start with
  | inl e => inl e
  | inr c => summary (Z.of_nat (length test_data)) c
  end.

(** [main], lines 242-244: the exit status once the results are there. *)
Definition exit_status (r : results) : Z :=
  if 0 <? failed (tally r) then 1 else 0.

End TestApi.


(** ** The scoring client: what its counters and metrics satisfy *)

Module TestApiFacts.

Import PyFloat TestApi.

(** What holds of the counters after [n] turns of the loop. *)
Record tallied (n : Z) (c : counters) : Prop := {
  tallied_errors : failed c = Z.of_nat (length (errors c));
  tallied_nonneg :
    0 <= true_positives c /\ 0 <= true_negatives c
    /\ 0 <= false_positives c /\ 0 <= false_negatives c;
  tallied_cells :
    true_positives c + true_negatives c + false_positives c + false_negatives c
    <= successful c;
  tallied_correct :
    true_positives c + true_negatives c <= correct_predictions c <= successful c;
  tallied_successful : 0 <= successful c <= n;
  tallied_failed : 0 <= failed c <= n;
  tallied_total : n <= successful c + failed c
}.

Lemma tallied_start : tallied 0 start.
Proof. split; cbn; lia. Qed.

Lemma tallied_fail n c msg : tallied n c -> tallied (n + 1) (fail c msg).
Proof.
  intros [He Hn Hc Hk Hs Hf Ht]. split; cbn; try lia.
  rewrite length_app. cbn. lia.
Qed.

(** A 200 whose body is not JSON counts twice, as a success and as a
    failure. *)
Lemma tallied_succeed_fail n c msg :
  tallied n c -> tallied (n + 1) (fail (succeed c) msg).
Proof.
  intros [He Hn Hc Hk Hs Hf Ht]. split; cbn; try lia.
  rewrite length_app. cbn. lia.
Qed.

Lemma tallied_score n c predicted expected :
  tallied n c -> tallied (n + 1) (score (succeed c) predicted expected).
Proof.
  intros [He Hn Hc Hk Hs Hf Ht].
  split; cbn;
    destruct (Z.eqb_spec predicted expected);
    destruct (Z.eqb_spec predicted 1); destruct (Z.eqb_spec predicted 0);
    destruct (Z.eqb_spec expected 1); destruct (Z.eqb_spec expected 0);
    cbn; lia.
Qed.

Lemma turn_tallied post idx tc n c c' :
  turn post idx tc c = inr c' -> tallied n c -> tallied (n + 1) c'.
Proof.
  unfold turn. intros H Hc.
  destruct (post idx (features tc)) as [[msg|cls msg]|r]; [| discriminate |].
  - injection H as <-. now apply tallied_fail.
  - destruct (status_code r =? 200).
    + destruct (json r) as [[msg|cls msg]|[[|p ps]|]]; try discriminate;
        injection H as <-.
      * now apply tallied_succeed_fail.
      * now apply tallied_score.
    + injection H as <-. now apply tallied_fail.
Qed.

Lemma loop_tallied post test_data : forall idx n c c',
  loop post idx test_data c = inr c' ->
  tallied n c ->
  tallied (n + Z.of_nat (length test_data)) c'.
Proof.
  induction test_data as [|tc rest IH]; intros idx n c c' H Hc.
  - injection H as <-. cbn. now rewrite Z.add_0_r.
  - cbn [loop] in H.
    destruct (turn post idx tc c) as [e|c1] eqn:Ht; [discriminate|].
    replace (n + Z.of_nat (length (tc :: rest)))
      with ((n + 1) + Z.of_nat (length rest)) by (cbn [length]; lia).
    apply (IH (S idx) (n + 1) c1 c' H).
    exact (turn_tallied post idx tc n c c1 Ht Hc).
Qed.

(** *** The metrics *)

Lemma percentage_returns (n d : Z) :
  exists q, percentage n d = inr q /\ (d <= 0 -> q = Int 0).
Proof.
  unfold percentage, truediv. cbn [is_zero].
  destruct (Z.ltb_spec 0 d) as [Hd|Hd].
  - destruct (Z.eqb_spec d 0); [lia|]. eexists. split; [reflexivity | lia].
  - eexists. split; reflexivity.
Qed.

Lemma positive_not_zero (a : number) : positive a = true -> is_zero a = false.
Proof.
  destruct a as [z|f]; cbn.
  - intros H. apply Z.ltb_lt in H. apply Z.eqb_neq. lia.
  - now destruct f.
Qed.

Lemma f1_returns (p r : number) : exists f, f1 p r = inr f.
Proof.
  unfold f1, truediv.
  destruct (positive (add p r)) eqn:H.
  - rewrite (positive_not_zero _ H). now eexists.
  - now eexists.
Qed.

Lemma summary_returns (n : Z) (c : counters) :
  exists r, summary n c = inr r
            /\ total r = n /\ tally r = c
            /\ (n <= 0 -> accuracy r = Int 0)
            /\ (true_positives c + false_positives c <= 0 -> precision r = Int 0)
            /\ (true_positives c + false_negatives c <= 0 -> recall r = Int 0).
Proof.
  unfold summary.
  destruct (percentage_returns (correct_predictions c) n) as (a & -> & Ha).
  destruct (percentage_returns (true_positives c)
              (true_positives c + false_positives c)) as (p & -> & Hp).
  destruct (percentage_returns (true_positives c)
              (true_positives c + false_negatives c)) as (r & -> & Hr).
  destruct (f1_returns p r) as (f & ->).
  eexists. repeat split; assumption.
Qed.

(** What [test_api] returns are the counters its loop ended with. *)
Lemma test_api_returns_inv post test_data r :
  test_api post test_data = inr r ->
  loop post 1 test_data start = inr (tally r)
  /\ total r = Z.of_nat (length test_data).
Proof.
  unfold test_api.
  destruct (loop post 1 test_data start) as [e|c]; [discriminate|].
  destruct (summary_returns (Z.of_nat (length test_data)) c) as (r' & Hs & Ht & Hc & _).
  rewrite Hs. intros [= <-]. now rewrite Hc, Ht.
Qed.

End TestApiFacts.


Module TestApiExtra.

Import PyFloat TestApi TestApiFacts.

(** X15.  The bookkeeping of [test_api].  Whatever the server answers, the
    results it returns satisfy: [total] is the number of test cases;
    [failed] is the number of recorded errors; the four cells of the
    confusion matrix together are at most [successful]; true positives and
    true negatives are correct predictions, and correct predictions are
    successes; [successful] and [failed] are each at most [total], and
    together at least [total] (a 200 whose body is not JSON is counted in
    both). *)
Theorem test_api_bookkeeping (post : transport) (test_data : list test_case)
    (r : results) :
  test_api post test_data = inr r ->
  let c := tally r in
  total r = Z.of_nat (length test_data)
  /\ failed c = Z.of_nat (length (errors c))
  /\ true_positives c + true_negatives c + false_positives c + false_negatives c
     <= successful c
  /\ true_positives c + true_negatives c <= correct_predictions c <= successful c
  /\ 0 <= successful c <= total r
  /\ 0 <= failed c <= total r
  /\ total r <= successful c + failed c.
Proof.
  intros H. cbv zeta.
  destruct (test_api_returns_inv post test_data r H) as [Hl Ht].
  pose proof (loop_tallied post test_data 1 0 start (tally r) Hl tallied_start)
    as [He Hn Hc Hk Hs Hf Htot].
  rewrite Ht. repeat split; lia.
Qed.

(** A server that answers the first request with a label, the second with
    status 500, and whose 200 to the third is not JSON. *)
Definition flaky : transport := fun idx _ =>
  match idx with
  | 1%nat => inr {| status_code := 200; text := ""; json := inr (Some [1]) |}
  | 2%nat => inr {| status_code := 500; text := "boom"; json := inr None |}
  | _ => inr {| status_code := 200; text := "<html>";
                json := inl (RequestException "Expecting value") |}
  end.

Definition three_cases : list test_case :=
  [ {| features := []; expected_class := 1 |};
    {| features := []; expected_class := 0 |};
    {| features := []; expected_class := 0 |} ].

(** On it the counters are 2 successes and 2 failures for 3 cases. *)
Example test_api_flaky :
  exists r, test_api flaky three_cases = inr r
            /\ successful (tally r) = 2 /\ failed (tally r) = 2 /\ total r = 3
            /\ errors (tally r)
               = ["Test 2: HTTP 500 - boom"; "Test 3: Expecting value"].
Proof. eexists. split; [vm_compute; reflexivity|]. repeat split. Qed.

Lemma test_api_bookkeeping_witness :
  exists r, test_api flaky three_cases = inr r
            /\ total r <= successful (tally r) + failed (tally r).
Proof.
  eexists. split; [vm_compute; reflexivity|].
  eapply (test_api_bookkeeping flaky three_cases). vm_compute. reflexivity.
Defined.

(** X16.  The metrics never raise.  For any counters the summary of
    lines 106-128 returns: every division is guarded by its own divisor
    being positive, so there is no [ZeroDivisionError], and a metric whose
    denominator is not positive is the integer 0.  Hence [test_api]
    returns whenever its loop does, on empty test data too. *)
Theorem summary_never_raises (post : transport) (test_data : list test_case)
    (n : Z) (c : counters) :
  (exists r, summary n c = inr r
             /\ total r = n /\ tally r = c
             /\ (n <= 0 -> accuracy r = Int 0)
             /\ (true_positives c + false_positives c <= 0 -> precision r = Int 0)
             /\ (true_positives c + false_negatives c <= 0 -> recall r = Int 0))
  /\ (loop post 1 test_data start = inr c ->
      exists r, test_api post test_data = inr r /\ tally r = c)
  /\ test_api post []
     = inr {| total := 0; tally := start; accuracy := Int 0;
              precision := Int 0; recall := Int 0; f1_score := Int 0 |}.
Proof.
  repeat split.
  - apply summary_returns.
  - intros H. unfold test_api. rewrite H.
    destruct (summary_returns (Z.of_nat (length test_data)) c) as (r & Hs & _ & Hc & _).
    exists r. now rewrite Hs.
Qed.

End TestApiExtra.


(* ===================================================================== *)
(** * The scoring client against the endpoint *)
(* ===================================================================== *)

Module EndToEnd.

Import PyFloat FraudModel.

(** [requests.post] against a process in the state [s]: the request
    reaches [detect_fraud] as sent, and the response carries its status,
    the text of its body ([render]) and, as JSON, the labels under
    ["result"] for a 200 and no such entry for an [HTTPException].  The
    handler leaves the state as it is, so every request meets [s]. *)
Definition endpoint_transport {dir} (render : Api.http_response -> string)
    (ai_config : AIConfig) (s : State dir) : TestApi.transport :=
  fun _ payload =>
    let r := fst (Api.detect_fraud ai_config {| Api.features := payload |} s) in
    inr {| TestApi.status_code := Api.status r;
           TestApi.text := render r;
           TestApi.json :=
             inr match r with
                 | Api.Response200 body => Some (Api.result body)
                 | Api.HTTPException _ _ => None
                 end |}.

(** A saved model whose output rows are empty. *)
Definition empty_row_layer : Keras.TFSMLayer :=
  {| Keras.serving_default := fun batch =>
       Py.ok {[ "dense_7" := map (fun _ => []) batch ]} |}.

End EndToEnd.


Module EndToEndFacts.

Import PyFloat FraudModel TestApi TestApiFacts EndToEnd.

(** The counters when every 200 carries a label that is 0 or 1 and every
    expected class is 0 or 1. *)
Record exact (n : Z) (c : counters) : Prop := {
  exact_total : successful c + failed c = n;
  exact_cells :
    true_positives c + true_negatives c + false_positives c + false_negatives c
    = successful c;
  exact_correct : correct_predictions c = true_positives c + true_negatives c
}.

Lemma exact_start : exact 0 start.
Proof. split; reflexivity. Qed.

Lemma exact_fail n c msg : exact n c -> exact (n + 1) (fail c msg).
Proof. intros [Ht Hc Hk]. split; cbn; lia. Qed.

Lemma exact_score n c predicted expected :
  predicted = 0 \/ predicted = 1 ->
  expected = 0 \/ expected = 1 ->
  exact n c -> exact (n + 1) (score (succeed c) predicted expected).
Proof.
  intros [-> | ->] [-> | ->] [Ht Hc Hk]; split; cbn; lia.
Qed.

(** The two answers of the handler. *)
Lemma detect_fraud_cases {dir} (ai_config : AIConfig)
    (request : Api.FraudDetectionRequest) (s : State dir) :
  (exists labels,
     fst (Api.detect_fraud ai_config request s)
     = Api.Response200 {| Api.result := labels |}
     /\ Forall (fun l => l = 0 \/ l = 1) labels)
  \/ (exists detail,
        fst (Api.detect_fraud ai_config request s) = Api.HTTPException 500 detail).
Proof.
  unfold Api.detect_fraud. rewrite EndpointMore.detect_try_input_data.
  destruct (EndpointMore.input_data (Api.features request)) as [e|a].
  - right. now eexists.
  - destruct (predict ai_config a s) as [[e|labels] s'] eqn:Hp.
    + right. now eexists.
    + left. exists labels. split; [reflexivity|].
      apply (PredictFacts.predict_labels_binary ai_config a s labels).
      now rewrite Hp.
Qed.

Section Against.

Context {dir : Type}.
Variable render : Api.http_response -> string.
Variable ai_config : AIConfig.
Variable s : State dir.

Local Abbreviation post := (endpoint_transport render ai_config s).

(** One turn against the endpoint: a failure for a 500, a scored success
    for a 200 with labels, the [IndexError] for a 200 without. *)
Lemma turn_endpoint idx tc c :
  (exists msg, turn post idx tc c = inr (fail c msg))
  \/ (exists predicted,
        (predicted = 0 \/ predicted = 1)
        /\ turn post idx tc c
           = inr (score (succeed c) predicted (expected_class tc)))
  \/ turn post idx tc c = inl (Raised "IndexError" "list index out of range").
Proof.
  unfold turn, endpoint_transport. cbn.
  destruct (detect_fraud_cases ai_config {| Api.features := features tc |} s)
    as [(labels & -> & Hb) | (detail & ->)]; cbn.
  - destruct labels as [|p ps]; [now right; right|].
    right. left. exists p. split; [|reflexivity]. now inversion Hb.
  - left. now eexists.
Qed.

Lemma loop_endpoint_exact test_data : forall idx n c c',
  Forall (fun tc => expected_class tc = 0 \/ expected_class tc = 1) test_data ->
  loop post idx test_data c = inr c' ->
  exact n c ->
  exact (n + Z.of_nat (length test_data)) c'.
Proof.
  induction test_data as [|tc rest IH]; intros idx n c c' Hexp H Hc.
  - injection H as <-. cbn. now rewrite Z.add_0_r.
  - apply Forall_cons in Hexp as [Htc Hrest].
    cbn [loop] in H.
    replace (n + Z.of_nat (length (tc :: rest)))
      with ((n + 1) + Z.of_nat (length rest)) by (cbn [length]; lia).
    destruct (turn_endpoint idx tc c) as [(msg & Ht) | [(p & Hp & Ht) | Ht]];
      rewrite Ht in H; [| |discriminate].
    + apply (IH (S idx) (n + 1) _ c' Hrest H). now apply exact_fail.
    + apply (IH (S idx) (n + 1) _ c' Hrest H). now apply exact_score.
Qed.

Lemma loop_endpoint_raises test_data : forall idx c e,
  loop post idx test_data c = inl e ->
  e = Raised "IndexError" "list index out of range".
Proof.
  induction test_data as [|tc rest IH]; intros idx c e H; [discriminate|].
  cbn [loop] in H.
  destruct (turn_endpoint idx tc c) as [(msg & Ht) | [(p & Hp & Ht) | Ht]];
    rewrite Ht in H.
  - exact (IH _ _ _ H).
  - exact (IH _ _ _ H).
  - now injection H as <-.
Qed.

End Against.

End EndToEndFacts.


Module EndToEndExtra.

Import PyFloat FraudModel TestApi TestApiFacts EndToEnd EndToEndFacts.

(** X17.  The client against the endpoint.  When [test_api] is run against
    a process of this service on test data whose expected classes are 0
    or 1, and it returns, then every test case is either a success or a
    failure and none both; the confusion matrix is complete (its four
    cells add up to the successes); the correct predictions are the true
    positives and the true negatives; and the exit status is 0 exactly
    when every case succeeded. *)
Theorem test_api_against_endpoint {dir} (render : Api.http_response -> string)
    (ai_config : AIConfig) (s : State dir) (test_data : list test_case)
    (r : results) :
  Forall (fun tc => expected_class tc = 0 \/ expected_class tc = 1) test_data ->
  test_api (endpoint_transport render ai_config s) test_data = inr r ->
  let c := tally r in
  successful c + failed c = total r
  /\ true_positives c + true_negatives c + false_positives c + false_negatives c
     = successful c
  /\ correct_predictions c = true_positives c + true_negatives c
  /\ (exit_status r = 0 <-> successful c = total r).
Proof.
  intros Hexp H. cbv zeta.
  destruct (test_api_returns_inv _ test_data r H) as [Hl Ht].
  pose proof (loop_endpoint_exact render ai_config s test_data 1 0 start (tally r)
                Hexp Hl exact_start) as [He Hc Hk].
  pose proof (loop_tallied _ test_data 1 0 start (tally r) Hl tallied_start)
    as [_ _ _ _ _ Hf _].
  rewrite Ht. repeat split; try lia.
  - unfold exit_status. destruct (Z.ltb_spec 0 (failed (tally r))); [discriminate|].
    intros _. lia.
  - unfold exit_status. intros Hs.
    destruct (Z.ltb_spec 0 (failed (tally r))); [lia | reflexivity].
Qed.

(** Two rows, scored one quarter and three quarters, expected 0 and 1,
    against the served process of the fixture. *)
Definition two_cases : list test_case :=
  [ {| features := [Fixture.row Fixture.quarter]; expected_class := 0 |};
    {| features := [Fixture.row Fixture.three_quarters]; expected_class := 1 |} ].

Example test_api_two_cases :
  exists r,
    test_api (endpoint_transport (fun _ => "") Fixture.cfg Fixture.serving) two_cases
    = inr r
    /\ successful (tally r) = 2 /\ failed (tally r) = 0
    /\ true_positives (tally r) = 1 /\ true_negatives (tally r) = 1
    /\ accuracy r = Float (binary64 100 0).
Proof. eexists. split; [vm_compute; reflexivity|]. repeat split. Qed.

Lemma test_api_against_endpoint_witness :
  exists r,
    test_api (endpoint_transport (fun _ => "") Fixture.cfg Fixture.serving) two_cases
    = inr r
    /\ successful (tally r) + failed (tally r) = total r
    /\ true_positives (tally r) + true_negatives (tally r)
       + false_positives (tally r) + false_negatives (tally r)
       = successful (tally r)
    /\ correct_predictions (tally r) = true_positives (tally r) + true_negatives (tally r)
    /\ (exit_status r = 0 <-> successful (tally r) = total r).
Proof.
  eexists. split; [vm_compute; reflexivity|].
  apply (test_api_against_endpoint (fun _ => "") Fixture.cfg Fixture.serving two_cases).
  - repeat (apply Forall_cons_2; [cbn; auto|]). apply Forall_nil_2.
  - vm_compute. reflexivity.
Defined.

(** X18.  The one way the client can crash on the endpoint.  Run against a
    process of this service, [test_api] raises nothing but
    [IndexError("list index out of range")]: a 200 whose list of labels is
    empty, read at index 0 on line 72.  Failures of inference are counted,
    not raised. *)
Theorem test_api_against_endpoint_raises {dir}
    (render : Api.http_response -> string) (ai_config : AIConfig) (s : State dir)
    (test_data : list test_case) (e : exc) :
  test_api (endpoint_transport render ai_config s) test_data = inl e ->
  e = Raised "IndexError" "list index out of range".
Proof.
  unfold test_api.
  destruct (loop _ 1 test_data start) as [e'|c] eqn:Hl.
  - intros [= <-]. exact (loop_endpoint_raises render ai_config s test_data 1 start e' Hl).
  - destruct (summary_returns (Z.of_nat (length test_data)) c) as (r & -> & _).
    discriminate.
Qed.

(** A saved model whose output rows are empty: the endpoint answers 200
    with no label, and the client stops on it. *)
Lemma test_api_against_endpoint_raises_witness :
  let s := Fixture.serving_with empty_row_layer in
  fst (Api.detect_fraud Fixture.cfg
         {| Api.features := [Fixture.row Fixture.half] |} s)
  = Api.Response200 {| Api.result := [] |}
  /\ exists e,
       test_api (endpoint_transport (fun _ => "") Fixture.cfg s) two_cases = inl e
       /\ e = Raised "IndexError" "list index out of range".
Proof.
  cbv zeta. split; [vm_compute; reflexivity|].
  eexists. split; [vm_compute; reflexivity|].
  apply (test_api_against_endpoint_raises (fun _ => "") Fixture.cfg
           (Fixture.serving_with empty_row_layer) two_cases).
  vm_compute. reflexivity.
Defined.

End EndToEndExtra.
